(** * templet: a shallow embedding of [templet.py]

    The program lists the text templates of a fixed directory, lets the
    user move a selection through the list (raw single keys where
    [termios] is available, typed commands otherwise) and instantiates
    the selected template in the working directory.

    The embedding follows the source function by function.  Python
    [str] values are byte strings (their UTF-8 encoding: ['.']
    is a single byte that occurs in no other code point, and the
    byte-wise order is the code-point order), Python [int]s are [Z]
    where the code subtracts and [nat] for the collision counter, which
    only counts up.  The file system, the clock and the standard streams
    are fields of one explicit state threaded by a small state and
    exception monad.  Files are opened as text: the state holds, for a
    file, the [str] that reading returns or that was written, and the
    functions of the section on text files relate it to the bytes on
    disk. *)

From Stdlib Require Import ZArith Lia Ascii String.
From stdpp Require Import gmap strings list fin_maps pretty sorting.

Open Scope Z_scope.

(** ** Strings *)

Definition nl : string := String "010"%char "".
Definition esc : string := String "027"%char "".
Definition cr : string := String "013"%char "".

(** ['.' in s] *)
Fixpoint contains_dot (s : string) : bool :=
  match s with
  | EmptyString => false
  | String c r => if Ascii.eqb c "."%char then true else contains_dot r
  end.

(** [s.rsplit('.', 1)]: the parts before and after the last ['.'];
    [None] where Python returns the single element [[s]], that is where
    ['.' in s] is false. *)
Fixpoint rsplit_dot (s : string) : option (string * string) :=
  match s with
  | EmptyString => None
  | String c r =>
      match rsplit_dot r with
      | Some (h, t) => Some (String c h, t)
      | None => if Ascii.eqb c "."%char then Some (EmptyString, r) else None
      end
  end.

(** ** Methods of [str] and [pathlib] supplied by the interpreter

    [str.lower], [str.strip], [str.isdigit] and [int] consult Unicode
    tables, and [PurePath.suffix] is pathlib's; none of them is code of
    the repository.  The embedding takes them as an interface. *)
Class StrMethods := {
  str_lower : string → string;
  str_strip : string → string;
  str_isdigit : string → bool;
  (** [int(s)]; [None] stands for [ValueError] *)
  str_int : string → option Z;
  (** [Path(name).suffix] *)
  path_suffix : string → string;
}.

(** *** Their behaviour on ASCII text *)

Definition is_upper (c : ascii) : bool :=
  let n := nat_of_ascii c in (65 <=? n)%nat && (n <=? 90)%nat.

Definition lower_char (c : ascii) : ascii :=
  if is_upper c then ascii_of_nat (nat_of_ascii c + 32) else c.

Fixpoint ascii_lower (s : string) : string :=
  match s with
  | EmptyString => EmptyString
  | String c r => String (lower_char c) (ascii_lower r)
  end.

Definition is_ascii_char (c : ascii) : bool := (nat_of_ascii c <? 128)%nat.

Fixpoint is_ascii (s : string) : bool :=
  match s with
  | EmptyString => true
  | String c r => is_ascii_char c && is_ascii r
  end.

(** White space of [str.strip] below 128: tab to carriage return, the
    four separators 28 to 31 and the space. *)
Definition is_space (c : ascii) : bool :=
  let n := nat_of_ascii c in
  ((9 <=? n)%nat && (n <=? 13)%nat) || ((28 <=? n)%nat && (n <=? 32)%nat).

Fixpoint lstrip (s : string) : string :=
  match s with
  | EmptyString => EmptyString
  | String c r => if is_space c then lstrip r else s
  end.

Definition ascii_strip (s : string) : string :=
  String.rev (lstrip (String.rev (lstrip s))).

Definition digit_value (c : ascii) : option Z :=
  let n := nat_of_ascii c in
  if (48 <=? n)%nat && (n <=? 57)%nat then Some (Z.of_nat n - 48) else None.

Fixpoint all_digits (s : string) : bool :=
  match s with
  | EmptyString => true
  | String c r => bool_decide (is_Some (digit_value c)) && all_digits r
  end.

Definition ascii_isdigit (s : string) : bool :=
  negb (bool_decide (s = EmptyString)) && all_digits s.

Fixpoint parse_digits (acc : Z) (s : string) : option Z :=
  match s with
  | EmptyString => Some acc
  | String c r =>
      match digit_value c with
      | Some d => parse_digits (10 * acc + d) r
      | None => None
      end
  end.

Definition ascii_int (s : string) : option Z :=
  if bool_decide (s = EmptyString) then None else parse_digits 0 s.

(** [PurePath.suffix] as CPython defines it up to 3.13:
    [i = name.rfind('.')], and [name[i:]] when [0 < i < len(name) - 1],
    the empty string otherwise. *)
Definition rfind_suffix (name : string) : string :=
  match rsplit_dot name with
  | Some (stem, ext) =>
      if bool_decide (stem ≠ EmptyString ∧ ext ≠ EmptyString) then "." +:+ ext
      else EmptyString
  | None => EmptyString
  end.

#[export] Instance ascii_methods : StrMethods := {|
  str_lower := ascii_lower;
  str_strip := ascii_strip;
  str_isdigit := ascii_isdigit;
  str_int := ascii_int;
  path_suffix := rfind_suffix;
|}.

(** What every implementation of the interface does on ASCII text. *)
Class StrMethodsAscii (SM : StrMethods) : Prop := {
  lower_on_ascii s : is_ascii s = true → str_lower s = ascii_lower s;
  isdigit_on_ascii s : is_ascii s = true → str_isdigit s = ascii_isdigit s;
}.

(** ** Module constants *)

Definition TEXT_EXTENSIONS : gset string := list_to_set [
  ".txt"; ".md"; ".py"; ".js"; ".html"; ".css"; ".yml"; ".yaml";
  ".json"; ".xml"; ".sh"; ".bash"; ".zsh"; ".fish"; ".toml"; ".ini";
  ".cfg"; ".conf"; ".env"; ".gitignore"; ".dockerignore"; ".rst";
  ".tex"; ".csv"; ".sql"; ".vim"; ".lua"; ".rb"; ".go"; ".rs";
  ".java"; ".c"; ".cpp"; ".h"; ".hpp"; ".php"; ".swift"; ".kt";
  ".r"; ".R"; ".jl"; ".ts"; ".tsx"; ".jsx"; ".vue"; ".svelte";
  ".scss"; ".sass"; ".less"; ".asm"; ".s"; ".pl"; ".pm"; ".tcl";
  ".dart"; ".gradle"; ".sbt"; ".clj"; ".cljs"; ".edn"; ".ex"; ".exs";
  ".elm"; ".fs"; ".fsx"; ".fsi"; ".ml"; ".mli"; ".nim"; ".nims";
  ".hx"; ".hxml"; ".pas"; ".pp"; ".inc"; ".zig"; ".v"; ".vsh"
]%string.

Definition NO_EXT_FILES : gset string := list_to_set [
  "Dockerfile"; ".gitignore"; "Makefile"; "Rakefile"; "Gemfile"; "Pipfile";
  "Procfile"; "Vagrantfile"; "Brewfile"; "Guardfile"; "Capfile";
  "Thorfile"; "Berksfile"; "Appraisals"; "Fastfile"; "Appfile";
  "Deliverfile"; "Matchfile"; "Scanfile"; "Gymfile"; "LICENSE";
  "README"; "CHANGELOG"; "AUTHORS"; "CONTRIBUTORS"; "COPYING";
  "INSTALL"; "NEWS"; "THANKS"; "HISTORY"; "NOTICE"; "MANIFEST"
]%string.

(** The set literal of [create_file_from_template]. *)
Definition header_safe_extensions : gset string :=
  list_to_set [".txt"; ".md"; ".markdown"; ".mdown"; ".mkd"]%string.

(** ** The environment *)

(** An entry of a directory.  The text of a regular file is what
    [f.read()] returns for it after [open(path, 'r', encoding='utf-8')],
    and for a file the program has written what was passed to
    [f.write]; [None] when [open] fails on the file.  [Undecodable] is a
    regular file that opens and whose bytes are not UTF-8, so that
    [f.read()] fails. *)
Inductive node :=
| RegularFile (text : option string)
| Undecodable
| Directory
| Special.

Definition is_file (n : node) : bool :=
  match n with RegularFile _ | Undecodable => true | _ => false end.

(** ** Files opened as text

    [open(path, 'r', encoding='utf-8')] and [open(path, 'w',
    encoding='utf-8')] leave [newline] at its default: what is read is
    decoded strictly and has its line ends translated, and what is
    written has [os.linesep] for every line feed. *)

(** The bytes are well-formed UTF-8: [ahead] continuation bytes are
    due, the next of them between [lo] and [hi]. *)
Fixpoint utf8_from (ahead : nat) (lo hi : nat) (data : string) : bool :=
  match data with
  | EmptyString => bool_decide (ahead = 0%nat)
  | String c rest =>
      let b := nat_of_ascii c in
      match ahead with
      | O =>
          if (b <=? 127)%nat then utf8_from 0 128 191 rest
          else if (194 <=? b)%nat && (b <=? 223)%nat then utf8_from 1 128 191 rest
          else if (b =? 224)%nat then utf8_from 2 160 191 rest
          else if (b =? 237)%nat then utf8_from 2 128 159 rest
          else if (225 <=? b)%nat && (b <=? 239)%nat then utf8_from 2 128 191 rest
          else if (b =? 240)%nat then utf8_from 3 144 191 rest
          else if (241 <=? b)%nat && (b <=? 243)%nat then utf8_from 3 128 191 rest
          else if (b =? 244)%nat then utf8_from 3 128 143 rest
          else false
      | S ahead =>
          (lo <=? b)%nat && (b <=? hi)%nat && utf8_from ahead 128 191 rest
      end
  end.

Definition utf8_valid (data : string) : bool := utf8_from 0 128 191 data.

(** Reading with universal newlines: a carriage return is read as a
    line feed, and the line feed that follows a carriage return is part
    of the same line end and not read again. *)
Fixpoint translate_read (after_cr : bool) (data : string) : string :=
  match data with
  | EmptyString => EmptyString
  | String c rest =>
      if Ascii.eqb c "013"%char
      then String "010"%char (translate_read true rest)
      else if Ascii.eqb c "010"%char && after_cr
      then translate_read false rest
      else String c (translate_read false rest)
  end.

Definition universal_newlines (data : string) : string :=
  translate_read false data.

(** Writing: every line feed is stored as [linesep], the platform's
    [os.linesep]. *)
Fixpoint stored_bytes (linesep text : string) : string :=
  match text with
  | EmptyString => EmptyString
  | String c rest =>
      if Ascii.eqb c "010"%char then linesep +:+ stored_bytes linesep rest
      else String c (stored_bytes linesep rest)
  end.

(** The entry of a regular file that can be opened and holds the bytes
    [data]. *)
Definition text_file (data : string) : node :=
  if utf8_valid data then RegularFile (Some (universal_newlines data))
  else Undecodable.

(** ['\r' in s] *)
Fixpoint contains_cr (s : string) : bool :=
  match s with
  | EmptyString => false
  | String c r => if Ascii.eqb c "013"%char then true else contains_cr r
  end.

Record datetime := {
  year : nat; month : nat; day : nat;
  hour : nat; minute : nat; second : nat;
}.

Fixpoint zeros (n : nat) : string :=
  match n with O => EmptyString | S n => String "0"%char (zeros n) end.

(** A number in at least [width] digits, as [%Y], [%m], [%d], [%H],
    [%M] and [%S] print it. *)
Definition padded (width n : nat) : string :=
  zeros (width - String.length (pretty n)) +:+ pretty n.

(** [strftime('%Y-%m-%d')] *)
Definition strftime_date (d : datetime) : string :=
  padded 4 (year d) +:+ "-" +:+ padded 2 (month d) +:+ "-" +:+ padded 2 (day d).

(** [strftime('%Y-%m-%d • %H:%M:%S')] *)
Definition strftime_stamp (d : datetime) : string :=
  strftime_date d +:+ " • " +:+ padded 2 (hour d) +:+ ":" +:+
  padded 2 (minute d) +:+ ":" +:+ padded 2 (second d).

(** What the read primitives deliver: the string returned by
    [get_key_termios()] or by [input()], or an interrupt raised while
    the program waits. *)
Inductive event :=
| Text (s : string)
| Interrupt.

(** What is behind the events of the standard input once they have
    all been read.  [Waiting]: input that has not arrived yet.
    [Closed]: the end of the input, where [input()] raises [EOFError]
    and [sys.stdin.read(1)] returns the empty string.  [NoTerminal]: the
    end of the input on a descriptor that is no terminal, where
    [termios.tcgetattr] fails before anything is read; in raw mode a
    descriptor that is no terminal delivers no event at all. *)
Inductive ending :=
| Waiting
| Closed
| NoTerminal.

(** Where writing a file in the working directory stops when it does
    not go through: at [open], which then creates nothing, or after
    [open] has created the file, with the first [kept] bytes of the text
    stored. *)
Inductive write_fault :=
| AtOpen
| AtWrite (kept : nat).

(** What the program prints. *)
Inductive output :=
| Frame (names : list string) (selected : Z) (fancy : bool)
| CommandsLine
| Prompt
| Created (filename : string)
| HelpText
| UnknownHint (nonempty : bool)
| Reset.

(** The exceptions of the program's operations.  [UnicodeDecodeError]
    is a [ValueError] in Python; no handler of the program tells them
    apart. *)
Inductive exn :=
| OSError
| ValueError
| UnicodeDecodeError
| IndexError
| KeyboardInterrupt
| EOFError
| TermiosError.

#[export] Instance exn_eq_dec : EqDecision exn.
Proof. solve_decision. Defined.

(** The [TemplateManager] object ([templates], [selected_index],
    [use_termios]) and the process environment around it.
    [cwd_writable] says that a file of the working directory can be
    created and written to its end; [fault] says where writing stops when
    it cannot.  [stdin] holds the events the program gets to read and
    [stdin_end] what is behind them. *)
Record State := {
  templates : list string;
  selected_index : Z;
  use_termios : bool;
  template_dir : gmap string node;
  cwd : gmap string node;
  cwd_writable : bool;
  fault : write_fault;
  clock : nat → datetime;
  ticks : nat;
  stdin : list event;
  stdin_end : ending;
  stdout : list output;
}.

Definition set_templates (l : list string) (s : State) : State :=
  {| templates := l; selected_index := selected_index s;
     use_termios := use_termios s; template_dir := template_dir s;
     cwd := cwd s; cwd_writable := cwd_writable s; fault := fault s;
     clock := clock s;
     ticks := ticks s; stdin := stdin s;
     stdin_end := stdin_end s; stdout := stdout s |}.

Definition set_selected_index (i : Z) (s : State) : State :=
  {| templates := templates s; selected_index := i;
     use_termios := use_termios s; template_dir := template_dir s;
     cwd := cwd s; cwd_writable := cwd_writable s; fault := fault s;
     clock := clock s;
     ticks := ticks s; stdin := stdin s;
     stdin_end := stdin_end s; stdout := stdout s |}.

Definition set_use_termios (b : bool) (s : State) : State :=
  {| templates := templates s; selected_index := selected_index s;
     use_termios := b; template_dir := template_dir s;
     cwd := cwd s; cwd_writable := cwd_writable s; fault := fault s;
     clock := clock s;
     ticks := ticks s; stdin := stdin s;
     stdin_end := stdin_end s; stdout := stdout s |}.

Definition set_cwd (m : gmap string node) (s : State) : State :=
  {| templates := templates s; selected_index := selected_index s;
     use_termios := use_termios s; template_dir := template_dir s;
     cwd := m; cwd_writable := cwd_writable s; fault := fault s;
     clock := clock s;
     ticks := ticks s; stdin := stdin s;
     stdin_end := stdin_end s; stdout := stdout s |}.

Definition set_ticks (n : nat) (s : State) : State :=
  {| templates := templates s; selected_index := selected_index s;
     use_termios := use_termios s; template_dir := template_dir s;
     cwd := cwd s; cwd_writable := cwd_writable s; fault := fault s;
     clock := clock s;
     ticks := n; stdin := stdin s;
     stdin_end := stdin_end s; stdout := stdout s |}.

Definition set_stdin (l : list event) (s : State) : State :=
  {| templates := templates s; selected_index := selected_index s;
     use_termios := use_termios s; template_dir := template_dir s;
     cwd := cwd s; cwd_writable := cwd_writable s; fault := fault s;
     clock := clock s;
     ticks := ticks s; stdin := l;
     stdin_end := stdin_end s; stdout := stdout s |}.

Definition set_stdout (l : list output) (s : State) : State :=
  {| templates := templates s; selected_index := selected_index s;
     use_termios := use_termios s; template_dir := template_dir s;
     cwd := cwd s; cwd_writable := cwd_writable s; fault := fault s;
     clock := clock s;
     ticks := ticks s; stdin := stdin s;
     stdin_end := stdin_end s; stdout := l |}.

(** ** The monad *)

(** How a computation ends: with a value, with an exception, waiting
    for input that [stdin] does not hold yet, or with the step budget of
    a loop used up. *)
Inductive result (A : Type) :=
| Ok (a : A)
| Raise (e : exn)
| Blocked
| OutOfFuel.
Arguments Ok {A} a.
Arguments Raise {A} e.
Arguments Blocked {A}.
Arguments OutOfFuel {A}.

Definition M (A : Type) : Type := State → result A * State.

#[export] Instance M_ret : MRet M := λ A a s, (Ok a, s).

#[export] Instance M_bind : MBind M := λ A B k m s,
  match m s with
  | (Ok a, s') => k a s'
  | (Raise e, s') => (Raise e, s')
  | (Blocked, s') => (Blocked, s')
  | (OutOfFuel, s') => (OutOfFuel, s')
  end.

Definition get : M State := λ s, (Ok s, s).
Definition modify (f : State → State) : M unit := λ s, (Ok tt, f s).
Definition raise {A} (e : exn) : M A := λ s, (Raise e, s).
Definition out_of_fuel {A} : M A := λ s, (OutOfFuel, s).

(** [try: m except e: pass] *)
Definition except_pass (e : exn) (m : M unit) : M unit := λ s,
  match m s with
  | (Raise e', s') => if decide (e' = e) then (Ok tt, s') else (Raise e', s')
  | r => r
  end.

(** [try: m finally: f], for an [f] that ends normally: [f] runs once
    [m] has returned or raised, and the outcome of [m] stands. *)
Definition finally (m : M unit) (f : M unit) : M unit := λ s,
  match m s with
  | (Ok a, s') => (Ok a, (f s').2)
  | (Raise e, s') => (Raise e, (f s').2)
  | r => r
  end.

(** ** Primitives of the environment *)

(** [print(...)] *)
Definition print (o : output) : M unit :=
  modify (λ s, set_stdout (stdout s ++ [o]) s).

(** [datetime.now()] *)
Definition now : M datetime := λ s,
  (Ok (clock s (ticks s)), set_ticks (S (ticks s)) s).

(** One read from the standard input; [at_end] is what the reading
    operation does once the events have all been read. *)
Definition read_event (at_end : ending → result string) : M string := λ s,
  match stdin s with
  | [] => (at_end (stdin_end s), s)
  | Text t :: rest => (Ok t, set_stdin rest s)
  | Interrupt :: rest => (Raise KeyboardInterrupt, set_stdin rest s)
  end.

(** [input()] at the end of the input raises [EOFError], with or
    without a terminal. *)
Definition input_at_end (e : ending) : result string :=
  match e with
  | Waiting => Blocked
  | Closed | NoTerminal => Raise EOFError
  end.

(** [get_key_termios()] at the end of the input: [termios.tcgetattr]
    raises [termios.error] when the descriptor is no terminal; otherwise
    [sys.stdin.read(1)] returns the empty string, which is the key. *)
Definition key_at_end (e : ending) : result string :=
  match e with
  | Waiting => Blocked
  | Closed => Ok EmptyString
  | NoTerminal => Raise TermiosError
  end.

(** [input(prompt)] *)
Definition input : M string := print Prompt;; read_event input_at_end.

(** [open(self.template_dir / name, 'r', encoding='utf-8')], which
    raises [OSError] when the file cannot be opened, and [f.read()],
    which raises [UnicodeDecodeError] when its bytes are not UTF-8. *)
Definition read_template (name : string) : M string := λ s,
  match template_dir s !! name with
  | Some (RegularFile (Some text)) => (Ok text, s)
  | Some Undecodable => (Raise UnicodeDecodeError, s)
  | _ => (Raise OSError, s)
  end.

(** [Path(name).exists()], for a name relative to the working directory *)
Definition path_exists (name : string) : M bool := λ s,
  (Ok (bool_decide (is_Some (cwd s !! name))), s).

(** [open(name, 'w', encoding='utf-8')]: the file is created, or
    emptied when it exists, unless [open] fails. *)
Definition open_w (name : string) : M unit := λ s,
  match cwd s !! name with
  | Some Directory => (Raise OSError, s)
  | _ =>
      if cwd_writable s || match fault s with AtWrite _ => true | AtOpen => false end
      then (Ok tt, set_cwd (<[name := RegularFile (Some EmptyString)]> (cwd s)) s)
      else (Raise OSError, s)
  end.

(** [f.write(text)] and the close of the [with] block, on the file
    that [open_w] has opened: the text is stored, or the part of it that
    a failing write leaves. *)
Definition f_write (name text : string) : M unit := λ s,
  if cwd_writable s
  then (Ok tt, set_cwd (<[name := RegularFile (Some text)]> (cwd s)) s)
  else
    match fault s with
    | AtWrite kept =>
        (Raise OSError,
         set_cwd (<[name := RegularFile (Some (substring 0 kept text))]> (cwd s)) s)
    | AtOpen => (Raise OSError, s)
    end.

(** [with open(name, 'w', encoding='utf-8') as f: f.write(text)] *)
Definition write_file (name text : string) : M unit :=
  open_w name;;
  f_write name text.

(** [l[i]] for a Python list: negative indices count from the end. *)
Definition getitem (l : list string) (i : Z) : M string :=
  let n := Z.of_nat (length l) in
  let j := if i <? 0 then n + i else i in
  if (0 <=? j) && (j <? n) then
    match l !! Z.to_nat j with
    | Some x => mret x
    | None => raise IndexError
    end
  else raise IndexError.

(** [sorted(names)] *)
Definition sorted (names : list string) : list string :=
  merge_sort String.le names.

(** ** The program *)

Section Program.
Context {SM : StrMethods}.

(** [TemplateManager.is_supported_file], on the name of the path *)
Definition is_supported_file (name : string) : bool :=
  if bool_decide (name ∈ NO_EXT_FILES) then true
  else bool_decide (str_lower (path_suffix name) ∈ TEXT_EXTENSIONS).

(** [self.template_dir.iterdir()]: the entries of the directory with
    their names, in an order the file system chooses. *)
Definition iterdir (dir : gmap string node) : list (string * node) :=
  map_to_list dir.

(** [TemplateManager.setup_directory]: [mkdir(parents=True,
    exist_ok=True)] on the template directory, which the state holds. *)
Definition setup_directory : M unit := mret tt.

(** [TemplateManager.load_templates] *)
Definition load_templates : M unit :=
  s ← get;
  modify (set_templates (sorted
    (filter (λ f, is_file f.2 && is_supported_file f.1 = true)
            (iterdir (template_dir s))).*1)).

(** [TemplateManager.__init__]; [termios_available] is the module's
    [TERMIOS_AVAILABLE]. *)
Definition init (termios_available : bool) : M unit :=
  modify (set_templates []);;
  modify (set_selected_index 0);;
  modify (set_use_termios termios_available);;
  setup_directory;;
  load_templates.

(** [TemplateManager.draw_ui] *)
Definition draw_ui : M unit :=
  s ← get;
  print (Frame (templates s) (selected_index s) (use_termios s)).

(** [TemplateManager.get_key_termios]: one key, the three bytes of an
    escape sequence being one event.  The terminal settings are put back
    in the [finally] clause whatever the read does; they are not part of
    the state. *)
Definition get_key_termios : M string := read_event key_at_end.

(** [TemplateManager.get_command_fallback] *)
Definition get_command_fallback : M string :=
  s ← get;
  line ← (if bool_decide (templates s = []) then input
          else print CommandsLine;; input);
  mret (str_lower (str_strip line)).

(** The name the collision loop assigns for a given counter. *)
Definition renamed (original_filename : string) (counter : nat) : string :=
  match rsplit_dot original_filename with
  | Some (name_part, ext_part) =>
      name_part +:+ "-" +:+ pretty counter +:+ "." +:+ ext_part
  | None => original_filename +:+ "-" +:+ pretty counter
  end.

(** The [while Path(new_filename).exists()] loop of
    [create_file_from_template], with a budget of iterations. *)
Fixpoint resolve_conflicts (fuel : nat) (original_filename new_filename : string)
    (counter : nat) : M string :=
  match fuel with
  | O => out_of_fuel
  | S fuel =>
      taken ← path_exists new_filename;
      if taken : bool then
        resolve_conflicts fuel original_filename
          (renamed original_filename counter) (S counter)
      else mret new_filename
  end.

(** The header of a prose file. *)
Definition header (template_name : string) (d : datetime) : string :=
  "# ✦ Template: " +:+ template_name +:+ nl +:+
  "### 📅 " +:+ strftime_stamp d +:+ nl +:+
  "---" +:+ nl +:+
  nl.

(** [base_name] and [extension] of [create_file_from_template] *)
Definition split_name (template_name : string) : string * string :=
  match rsplit_dot template_name with
  | Some (base_name, extension) => (base_name, "." +:+ extension)
  | None => (template_name, EmptyString)
  end.

(** [TemplateManager.create_file_from_template].  The collision loop
    gets one iteration more than the working directory has entries. *)
Definition create_file_from_template (template_name : string)
    (add_date_prefix : bool) : M string :=
  content ← read_template template_name;
  let '(base_name, extension) := split_name template_name in
  new_filename ←
    (if add_date_prefix then
       d ← now;
       mret (strftime_date d +:+ "-" +:+ base_name +:+ extension)
     else mret (base_name +:+ extension));
  s ← get;
  new_filename ←
    resolve_conflicts (S (size (cwd s))) new_filename new_filename 1;
  final_content ←
    (if bool_decide (str_lower extension ∈ header_safe_extensions)
        && add_date_prefix
     then d ← now; mret (header template_name d +:+ content)
     else mret content);
  write_file new_filename final_content;;
  mret new_filename.

(** The two instantiating branches: the selected template is created,
    the confirmation printed, and the loop left. *)
Definition instantiate (add_date_prefix : bool) : M bool :=
  s ← get;
  template ← getitem (templates s) (selected_index s);
  filename ← create_file_from_template template add_date_prefix;
  print (Created filename);;
  mret false.

Definition nonempty (l : list string) : bool :=
  negb (bool_decide (l = [])).

(** [TemplateManager.handle_fallback_command]: [true] to continue,
    [false] to exit. *)
Definition handle_fallback_command (command : string) : M bool :=
  let command := if bool_decide (command = EmptyString) then "enter" else command in
  s ← get;
  if bool_decide (command ∈ ["q"; "quit"; "exit"]) then mret false
  else if bool_decide (command ∈ ["up"; "u"]) && nonempty (templates s) then
    modify (set_selected_index (Z.max 0 (selected_index s - 1)));;
    mret true
  else if bool_decide (command ∈ ["down"; "d"]) && nonempty (templates s) then
    modify (set_selected_index
      (Z.min (Z.of_nat (length (templates s)) - 1) (selected_index s + 1)));;
    mret true
  else if str_isdigit command && nonempty (templates s) then
    match str_int command with
    | None => raise ValueError
    | Some n =>
        let target_index := n - 1 in
        (if (0 <=? target_index) && (target_index <? Z.of_nat (length (templates s)))
         then modify (set_selected_index target_index)
         else mret tt);;
        mret true
    end
  else if bool_decide (command ∈ ["enter"; "e"; EmptyString]) && nonempty (templates s) then
    instantiate true
  else if bool_decide (command ∈ ["copy"; "c"]) && nonempty (templates s) then
    instantiate false
  else if bool_decide (command ∈ ["help"; "h"; "?"]) then
    print HelpText;;
    input;;
    mret true
  else
    print (UnknownHint (nonempty (templates s)));;
    input;;
    mret true.

(** The key dispatch of [run] in [termios] mode: [true] to continue,
    [false] for [break]. *)
Definition handle_key (key : string) : M bool :=
  s ← get;
  if bool_decide (key = "q") then mret false
  else if bool_decide (key = esc +:+ "[A") && nonempty (templates s) then
    modify (set_selected_index (Z.max 0 (selected_index s - 1)));;
    mret true
  else if bool_decide (key = esc +:+ "[B") && nonempty (templates s) then
    modify (set_selected_index
      (Z.min (Z.of_nat (length (templates s)) - 1) (selected_index s + 1)));;
    mret true
  else if bool_decide (key = cr) && nonempty (templates s) then
    instantiate true
  else if bool_decide (key = "c") && nonempty (templates s) then
    instantiate false
  else mret true.

(** One iteration of the [while True] loop of [run]. *)
Definition iteration : M bool :=
  draw_ui;;
  s ← get;
  if use_termios s then
    key ← get_key_termios;
    handle_key key
  else
    command ← get_command_fallback;
    handle_fallback_command command.

Fixpoint main_loop (fuel : nat) : M unit :=
  match fuel with
  | O => out_of_fuel
  | S fuel =>
      continue ← iteration;
      if continue : bool then main_loop fuel else mret tt
  end.

(** [TemplateManager.run] *)
Definition run (fuel : nat) : M unit :=
  finally (except_pass KeyboardInterrupt (main_loop fuel)) (print Reset).

(** [main] *)
Definition main (termios_available : bool) (fuel : nat) : M unit :=
  init termios_available;;
  run fuel.


(** ** Vocabulary of the statements *)

(** The names the collision loop tries, in order: the original name,
    then the name for counter 1, 2, ... *)
Definition candidate (original_filename : string) (k : nat) : string :=
  match k with
  | O => original_filename
  | S _ => renamed original_filename k
  end.

(** The name [create_file_from_template] starts the collision loop
    with, [now] being the reading of the clock. *)
Definition first_name (template_name : string) (add_date_prefix : bool)
    (now : datetime) : string :=
  let '(base_name, extension) := split_name template_name in
  if add_date_prefix then strftime_date now +:+ "-" +:+ base_name +:+ extension
  else base_name +:+ extension.

(** The selection is a valid index of a catalog that has entries. *)
Definition in_range (s : State) : Prop :=
  templates s ≠ [] → 0 ≤ selected_index s < Z.of_nat (length (templates s)).

(** The state a computation leaves. *)
Definition after {A} (m : M A) (s : State) : State := (m s).2.

(** The two states differ at most in the working directory and in the
    number of readings taken from the clock. *)
Definition same_session (s s' : State) : Prop :=
  templates s' = templates s ∧ selected_index s' = selected_index s ∧
  use_termios s' = use_termios s ∧ template_dir s' = template_dir s ∧
  cwd_writable s' = cwd_writable s ∧ clock s' = clock s ∧
  stdin s' = stdin s ∧ stdout s' = stdout s ∧
  fault s' = fault s ∧ stdin_end s' = stdin_end s.

(** The text [create_file_from_template] writes for a template with
    text [content], [now] being the reading of the clock. *)
Definition final_text (template_name : string) (add_date_prefix : bool)
    (now : datetime) (content : string) : string :=
  if bool_decide (str_lower (split_name template_name).2 ∈ header_safe_extensions)
     && add_date_prefix
  then header template_name now +:+ content
  else content.

(** [m] relates the state it starts in to the state it leaves. *)
Definition preserves {A} (R : relation State) (m : M A) : Prop :=
  ∀ s, R s (m s).2.

(** The catalog, the selection and the input mode are the same in
    both states, and so is what is behind the input. *)
Definition same_selection (s s' : State) : Prop :=
  templates s' = templates s ∧ selected_index s' = selected_index s ∧
  use_termios s' = use_termios s ∧ stdin_end s' = stdin_end s.

(** The catalog and the input mode are the same, and a valid
    selection stays valid. *)
Definition steady (s s' : State) : Prop :=
  templates s' = templates s ∧ use_termios s' = use_termios s ∧
  (in_range s → in_range s') ∧ stdin_end s' = stdin_end s.

(** The keys and commands of the two navigation moves. *)
Definition move_down : list (M bool) :=
  [handle_key (esc +:+ "[B"); handle_fallback_command "down";
   handle_fallback_command "d"].

Definition move_up : list (M bool) :=
  [handle_key (esc +:+ "[A"); handle_fallback_command "up";
   handle_fallback_command "u"].

(** The template cannot be read, or the working directory cannot be
    written. *)
Definition instantiation_fails (s : State) (template_name : string) : Prop :=
  (∀ content, template_dir s !! template_name ≠ Some (RegularFile (Some content)))
  ∨ cwd_writable s = false.

(** The exception with which instantiating [template_name] then fails:
    the [UnicodeDecodeError] of [f.read()] for a template that is not
    UTF-8, and the [OSError] of [open] or of the write otherwise. *)
Definition failure (s : State) (template_name : string) : exn :=
  match template_dir s !! template_name with
  | Some Undecodable => UnicodeDecodeError
  | _ => OSError
  end.

(** The working directory of [s'] is that of [s] with one file more,
    under a name that was free. *)
Definition one_new_file (s s' : State) : Prop :=
  ∃ filename text,
    cwd s !! filename = None ∧
    cwd s' = <[filename := RegularFile (Some text)]> (cwd s).

Definition at_most_one_new_file (s s' : State) : Prop :=
  cwd s' = cwd s ∨ one_new_file s s'.

(** ** Sample sessions *)

Definition morning : datetime :=
  {| year := 2024; month := 3; day := 1; hour := 9; minute := 5; second := 7 |}.

(** A session with three templates, started in a working directory
    that already holds [report.txt] and [report-1.txt]. *)
Definition sample : State := {|
  templates := ["notes.md"; "report.txt"; "script.sh"];
  selected_index := 0;
  use_termios := true;
  template_dir := list_to_map [
    ("notes.md", RegularFile (Some "body"));
    ("report.txt", RegularFile (Some "figures"));
    ("script.sh", RegularFile (Some "exit 0"));
    ("drafts", Directory)];
  cwd := list_to_map [
    ("report.txt", RegularFile (Some "old"));
    ("report-1.txt", RegularFile (Some "older"))];
  cwd_writable := true;
  fault := AtOpen;
  clock := λ _, morning;
  ticks := 0;
  stdin := [];
  stdin_end := Waiting;
  stdout := [];
|}.

(** The session of [sample] with an unreadable first template, in raw
    mode, the user pressing Enter. *)
Definition broken : State := {|
  templates := ["notes.md"; "report.txt"; "script.sh"];
  selected_index := 0;
  use_termios := true;
  template_dir := list_to_map [
    ("notes.md", RegularFile None);
    ("report.txt", RegularFile (Some "figures"));
    ("script.sh", RegularFile (Some "exit 0"))];
  cwd := ∅;
  cwd_writable := true;
  fault := AtOpen;
  clock := λ _, morning;
  ticks := 0;
  stdin := [Text cr];
  stdin_end := Waiting;
  stdout := [];
|}.

(** A session in fallback mode whose template directory holds nothing
    eligible. *)
Definition idle : State := {|
  templates := [];
  selected_index := 0;
  use_termios := false;
  template_dir := list_to_map [("drafts", Directory)];
  cwd := ∅;
  cwd_writable := true;
  fault := AtOpen;
  clock := λ _, morning;
  ticks := 0;
  stdin := [Text "up"];
  stdin_end := Waiting;
  stdout := [];
|}.

(** A session whose first template is not UTF-8, the user pressing
    Enter in raw mode. *)
Definition garbled : State := {|
  templates := ["logo.txt"; "notes.md"];
  selected_index := 0;
  use_termios := true;
  template_dir := list_to_map [
    ("logo.txt", text_file (String (ascii_of_nat 255) "PNG"));
    ("notes.md", RegularFile (Some "body"))];
  cwd := ∅;
  cwd_writable := true;
  fault := AtOpen;
  clock := λ _, morning;
  ticks := 0;
  stdin := [Text cr];
  stdin_end := Waiting;
  stdout := [];
|}.

(** A session on a full device, where a new file can be created and
    takes two bytes: the user types [c] in fallback mode. *)
Definition full : State := {|
  templates := ["notes.md"];
  selected_index := 0;
  use_termios := false;
  template_dir := list_to_map [("notes.md", RegularFile (Some "body"))];
  cwd := ∅;
  cwd_writable := false;
  fault := AtWrite 2;
  clock := λ _, morning;
  ticks := 0;
  stdin := [Text "c"];
  stdin_end := Waiting;
  stdout := [];
|}.

(** A shell script with DOS line ends, as bytes. *)
Definition dos_script : string :=
  "#!/bin/sh" +:+ cr +:+ nl +:+ "exit 0" +:+ cr +:+ nl.

(** A session whose template directory holds that script. *)
Definition dos_templates : State := {|
  templates := ["script.sh"];
  selected_index := 0;
  use_termios := true;
  template_dir := list_to_map [("script.sh", text_file dos_script)];
  cwd := ∅;
  cwd_writable := true;
  fault := AtOpen;
  clock := λ _, morning;
  ticks := 0;
  stdin := [];
  stdin_end := Waiting;
  stdout := [];
|}.

(** The session of [sample] in fallback mode with its input piped in:
    two commands, then the end of the input. *)
Definition piped : State := {|
  templates := ["Makefile"; "notes.md"; "report.txt"; "script.sh"];
  selected_index := 0;
  use_termios := false;
  template_dir := list_to_map [
    ("Makefile", RegularFile (Some "all:"));
    ("notes.md", RegularFile (Some "body"));
    ("report.txt", RegularFile (Some "figures"));
    ("script.sh", RegularFile (Some "exit 0"))];
  cwd := ∅;
  cwd_writable := true;
  fault := AtOpen;
  clock := λ _, morning;
  ticks := 0;
  stdin := [Text "down"; Text "9"];
  stdin_end := Closed;
  stdout := [];
|}.


(** ** Vocabulary of the further statements *)

(** [filename] was free in [s], [s'] has it as the one change of the
    working directory, and its confirmation is the last thing printed. *)
Definition created_one (s s' : State) (filename : string) : Prop :=
  cwd s !! filename = None ∧
  (∃ text, cwd s' = <[filename := RegularFile (Some text)]> (cwd s)) ∧
  last (stdout s') = Some (Created filename).

(** How a handler started in [s] can end: it asks to continue or to
    leave with the working directory as it was, it leaves having created
    one file, it raises with the working directory as it was (an
    [IndexError] only from a selection that is not valid), it raises
    [OSError] from a write that has left one new file, or it waits for
    input.  Pending input is never put back. *)
Inductive ends (s : State) : result bool * State → Prop :=
| ends_continue s' :
    cwd s' = cwd s → (length (stdin s') ≤ length (stdin s))%nat →
    ends s (Ok true, s')
| ends_leave s' :
    cwd s' = cwd s → ends s (Ok false, s')
| ends_created filename s' :
    created_one s s' filename → ends s (Ok false, s')
| ends_raise e s' :
    cwd s' = cwd s → (e = IndexError → ¬ in_range s) →
    ends s (Raise e, s')
| ends_partial s' :
    one_new_file s s' → ends s (Raise OSError, s')
| ends_blocked s' :
    cwd s' = cwd s → ends s (Blocked, s').

(** The one iteration that continues without an event taken: the
    empty key of the raw mode at the end of the input. *)
Definition reads_nothing (s : State) : Prop :=
  use_termios s = true ∧ stdin s = [] ∧ stdin_end s = Closed.

(** What [get_command_fallback] prints before it reads. *)
Definition prompts (s : State) : list output :=
  if use_termios s then []
  else if bool_decide (templates s = []) then [Prompt]
  else [CommandsLine; Prompt].

(** The state in which an iteration of the loop reads: the frame and,
    in fallback mode, the prompt are printed. *)
Definition at_prompt (s : State) : State :=
  set_stdout
    (stdout s ++ Frame (templates s) (selected_index s) (use_termios s) :: prompts s)
    s.

(** The key or command an iteration dispatches on for the text read. *)
Definition dispatch (s : State) (line : string) : M bool :=
  if use_termios s then handle_key line
  else handle_fallback_command (str_lower (str_strip line)).

(** An implementation of the interface that knows one digit beyond
    ASCII: the superscript two, for which [str.isdigit] holds and [int]
    raises. *)
Definition superscript_two : string :=
  String (ascii_of_nat 194) (String (ascii_of_nat 178) EmptyString).

Definition unicode_methods : StrMethods := {|
  str_lower := ascii_lower;
  str_strip := ascii_strip;
  str_isdigit := λ s, ascii_isdigit s || bool_decide (s = superscript_two);
  str_int := ascii_int;
  path_suffix := rfind_suffix;
|}.

(** A session in fallback mode in which the user types the superscript
    two. *)
Definition typed_superscript : State := {|
  templates := ["notes.md"; "report.txt"; "script.sh"];
  selected_index := 0;
  use_termios := false;
  template_dir := list_to_map [
    ("notes.md", RegularFile (Some "body"));
    ("report.txt", RegularFile (Some "figures"));
    ("script.sh", RegularFile (Some "exit 0"))];
  cwd := ∅;
  cwd_writable := true;
  fault := AtOpen;
  clock := λ _, morning;
  ticks := 0;
  stdin := [Text superscript_two];
  stdin_end := Waiting;
  stdout := [];
|}.

(** ** The content area of [draw_ui] *)

(** [for x in l: body x], with what the bodies give collected in
    order. *)
Fixpoint for_each {A B} (l : list A) (body : A → M B) : M (list B) :=
  match l with
  | [] => mret []
  | x :: l =>
      y ← body x;
      ys ← for_each l body;
      mret (y :: ys)
  end.

(** A row of the content area: a template with its number, marked when
    it is the selected one and drawn in the style of the input mode; a
    line of the notice for an empty catalog; or an empty row. *)
Inductive row :=
| Item (item_number : Z) (template : string) (selected fancy : bool)
| Notice (line : string)
| EmptyRow.

Definition content_height : Z := 10.

Definition empty_lines : list string := [
  EmptyString;
  "     No templates found!";
  EmptyString;
  "  Add files to: ~/Documents/templet/";
  EmptyString;
  "  Supported: .txt .md .py .yml .json";
  "  .sh .html .toml .env Dockerfile ...";
  EmptyString].

(** [start_idx] of [draw_ui] *)
Definition start_idx (s : State) : Z :=
  Z.max 0 (Z.min (selected_index s - 4)
                 (Z.of_nat (length (templates s)) - content_height)).

(** The rows [draw_ui] prints between the separators, top to bottom. *)
Definition content_area : M (list row) :=
  s ← get;
  if bool_decide (templates s = []) then
    for_each (seqZ 0 content_height) (λ i,
      if i <? Z.of_nat (length empty_lines) then
        line ← getitem empty_lines i;
        mret (Notice line)
      else mret EmptyRow)
  else
    let start_idx := start_idx s in
    for_each (seqZ 0 content_height) (λ i,
      if start_idx + i <? Z.of_nat (length (templates s)) then
        template ← getitem (templates s) (start_idx + i);
        let item_number := start_idx + i + 1 in
        mret (Item item_number template
                   (bool_decide (start_idx + i = selected_index s))
                   (use_termios s))
      else mret EmptyRow).

Definition is_item (r : row) : bool :=
  match r with Item _ _ _ _ => true | _ => false end.

(** The row [draw_ui] prints at position [i] of the content area of a
    catalog that has entries. *)
Definition row_at (s : State) (i : Z) : row :=
  match templates s !! Z.to_nat (start_idx s + i) with
  | Some template =>
      Item (start_idx s + i + 1) template
           (bool_decide (start_idx s + i = selected_index s)) (use_termios s)
  | None => EmptyRow
  end.

(** A session with twelve templates. *)
Definition long_catalog : State := {|
  templates := ["a.md"; "b.md"; "c.md"; "d.md"; "e.md"; "f.md"; "g.md";
                "h.md"; "i.md"; "j.md"; "k.md"; "l.md"];
  selected_index := 7;
  use_termios := true;
  template_dir := ∅;
  cwd := ∅;
  cwd_writable := true;
  fault := AtOpen;
  clock := λ _, morning;
  ticks := 0;
  stdin := [];
  stdin_end := Waiting;
  stdout := [];
|}.

(** * Properties *)

(** ** Strings *)

Lemma app_cons (c : ascii) (a b : string) :
  String c a +:+ b = String c (a +:+ b).
Proof. reflexivity. Qed.

Lemma app_nil (b : string) : EmptyString +:+ b = b.
Proof. reflexivity. Qed.

Lemma length_app (a b : string) :
  String.length (a +:+ b) = (String.length a + String.length b)%nat.
Proof. induction a as [|c a IH]; [done|]. rewrite app_cons. cbn. by rewrite IH. Qed.

Lemma app_inv_tail_s (a b t : string) : a +:+ t = b +:+ t → a = b.
Proof.
  revert b. induction a as [|x a IH]; intros [|y b] H; [done| | |].
  - apply (f_equal String.length) in H.
    rewrite app_nil, app_cons in H. cbn in H. rewrite length_app in H. lia.
  - apply (f_equal String.length) in H.
    rewrite app_nil, app_cons in H. cbn in H. rewrite length_app in H. lia.
  - rewrite !app_cons in H. injection H as -> H. f_equal. by apply IH.
Qed.

Lemma rsplit_dot_Some s a b :
  rsplit_dot s = Some (a, b) → s = a +:+ "." +:+ b ∧ contains_dot b = false.
Proof.
  revert a. induction s as [|c s IH]; intros a; [done|]. cbn.
  destruct (rsplit_dot s) as [[h t]|] eqn:E.
  - intros [= <- <-]. destruct (IH h eq_refl) as [-> ?]. done.
  - destruct (Ascii.eqb_spec c ".") as [->|]; [|done].
    intros [= <- <-]. split; [done|]. clear IH.
    induction s as [|d s IHs]; [done|]. cbn in E |- *.
    destruct (rsplit_dot s) as [[??]|]; [done|].
    destruct (Ascii.eqb d "."); [done|]. by apply IHs.
Qed.

Lemma rsplit_dot_None s : rsplit_dot s = None ↔ contains_dot s = false.
Proof.
  induction s as [|c s IH]; [done|]. cbn.
  destruct (rsplit_dot s) as [[??]|].
  - split; [done|]. destruct (Ascii.eqb c "."); [done|]. intros H. by apply IH in H.
  - destruct (Ascii.eqb c "."); [done|]. split; [|done]. intros _. by apply IH.
Qed.

(** ** The names of the collision loop *)

Lemma renamed_inj o : Inj (=) (=) (renamed o).
Proof.
  intros j k. unfold renamed. destruct (rsplit_dot o) as [[a b]|].
  - intros H. apply (inj (String.app a)) in H. apply (inj (String.app "-")) in H.
    apply app_inv_tail_s in H. by apply (inj pretty) in H.
  - intros H. apply (inj (String.app o)) in H. apply (inj (String.app "-")) in H.
    by apply (inj pretty) in H.
Qed.

Lemma renamed_longer o k : (String.length o < String.length (renamed o k))%nat.
Proof.
  unfold renamed. destruct (rsplit_dot o) as [[a b]|] eqn:E.
  - apply rsplit_dot_Some in E as [-> _]. rewrite !length_app. cbn. lia.
  - rewrite !length_app. cbn. lia.
Qed.

Lemma candidate_inj o : Inj (=) (=) (candidate o).
Proof.
  intros [|j] [|k] H; cbn in H; [done| | |].
  - pose proof (renamed_longer o (S k)) as L. rewrite <-H in L. lia.
  - pose proof (renamed_longer o (S j)) as L. rewrite H in L. lia.
  - by apply renamed_inj in H.
Qed.

(** Among the first [size m + 1] candidates one is not in [m]. *)
Lemma candidate_free (m : gmap string node) o :
  ∃ k, (k ≤ size m)%nat ∧ m !! candidate o k = None.
Proof.
  destruct (decide (Forall (λ k, is_Some (m !! candidate o k)) (seq 0 (S (size m)))))
    as [Hall|Hex].
  - exfalso.
    assert (list_to_set (C := gset string) (candidate o <$> seq 0 (S (size m))) ⊆ dom m) as Hsub.
    { intros x. rewrite elem_of_list_to_set, list_elem_of_fmap.
      intros (k & -> & Hk). apply elem_of_dom.
      rewrite Forall_forall in Hall. by apply Hall. }
    apply subseteq_size in Hsub. rewrite size_dom in Hsub.
    rewrite size_list_to_set in Hsub.
    + rewrite length_fmap, length_seq in Hsub. lia.
    + apply NoDup_fmap_2; [apply candidate_inj | apply NoDup_seq].
  - apply not_Forall_Exists in Hex; [|intros ?; apply _].
    apply Exists_exists in Hex as (k & Hk & Hnone).
    apply elem_of_seq in Hk. exists k. split; [lia|].
    by apply eq_None_not_Some.
Qed.

(** The first candidate that is not in [m]. *)
Lemma candidate_least (m : gmap string node) o :
  ∃ k, (k ≤ size m)%nat ∧ m !! candidate o k = None ∧
       ∀ j, (j < k)%nat → is_Some (m !! candidate o j).
Proof.
  destruct (candidate_free m o) as (n & Hn & Hfree).
  assert (∀ n, (∀ j, (j < n)%nat → is_Some (m !! candidate o j)) ∨
               ∃ k, (k < n)%nat ∧ m !! candidate o k = None ∧
                    ∀ j, (j < k)%nat → is_Some (m !! candidate o j)) as Hsearch.
  { clear. intros n. induction n as [|n [IH|(k & ? & ? & ?)]].
    - left. lia.
    - destruct (m !! candidate o n) as [x|] eqn:E.
      + left. intros j Hj. destruct (decide (j = n)) as [->|]; [by rewrite E|].
        apply IH. lia.
      + right. exists n. split; [lia|]. split; [done|]. exact IH.
    - right. exists k. split; [lia|]. done. }
  destruct (Hsearch n) as [Hall|(k & ? & ? & ?)].
  - exists n. done.
  - exists k. split; [lia|]. done.
Qed.

(** The loop returns the first free candidate, given the budget to
    reach it. *)
Lemma resolve_conflicts_least fuel o i k s :
  (i ≤ k < i + fuel)%nat →
  cwd s !! candidate o k = None →
  (∀ j, (i ≤ j < k)%nat → is_Some (cwd s !! candidate o j)) →
  resolve_conflicts fuel o (candidate o i) (S i) s = (Ok (candidate o k), s).
Proof.
  revert i. induction fuel as [|fuel IH]; intros i Hk Hfree Hleast; [lia|].
  cbn [resolve_conflicts]. unfold mbind, M_bind, path_exists.
  case_bool_decide as Htaken.
  - destruct (decide (k = i)) as [->|].
    { rewrite Hfree in Htaken. by destruct Htaken. }
    apply (IH (S i)); [lia|done|]. intros j Hj. apply Hleast. lia.
  - destruct (decide (k = i)) as [->|]; [done|].
    destruct Htaken. apply Hleast. lia.
Qed.

(** ** Reasoning about computations *)

Lemma bind_unfold {A B} (m : M A) (k : A → M B) s :
  (m ≫= k) s =
  match m s with
  | (Ok a, s') => k a s'
  | (Raise e, s') => (Raise e, s')
  | (Blocked, s') => (Blocked, s')
  | (OutOfFuel, s') => (OutOfFuel, s')
  end.
Proof. reflexivity. Qed.

Lemma preserves_bind {A B} (R : relation State) `{!Transitive R}
    (m : M A) (k : A → M B) :
  preserves R m → (∀ a, preserves R (k a)) → preserves R (m ≫= k).
Proof.
  intros Hm Hk s. rewrite bind_unfold. specialize (Hm s).
  destruct (m s) as [[a| | |] s1]; cbn in Hm |- *; [|done..].
  etrans; [exact Hm | apply Hk].
Qed.

Lemma preserves_unchanged {A} (R : relation State) `{!Reflexive R} (m : M A) :
  (∀ s, (m s).2 = s) → preserves R m.
Proof. intros H s. by rewrite H. Qed.

#[local] Instance same_session_refl : Reflexive same_session.
Proof. by intros s. Qed.

#[local] Instance same_session_trans : Transitive same_session.
Proof. unfold same_session. intros s1 s2 s3 ??. intuition congruence. Qed.

Lemma resolve_conflicts_state fuel o n c s :
  (resolve_conflicts fuel o n c s).2 = s.
Proof.
  revert n c. induction fuel as [|fuel IH]; intros n c; [done|].
  cbn [resolve_conflicts]. rewrite bind_unfold. unfold path_exists.
  case_bool_decide; [apply IH | done].
Qed.

Lemma now_spec s : now s = (Ok (clock s (ticks s)), set_ticks (S (ticks s)) s).
Proof. reflexivity. Qed.

Lemma get_spec s : get s = (Ok s, s).
Proof. reflexivity. Qed.

Lemma ret_spec {A} (a : A) s : mret (M := M) a s = (Ok a, s).
Proof. reflexivity. Qed.

Lemma modify_spec f s : modify f s = (Ok tt, f s).
Proof. reflexivity. Qed.

Lemma print_spec o s : print o s = (Ok tt, set_stdout (stdout s ++ [o]) s).
Proof. reflexivity. Qed.

(** One step of a computation applied to a state. *)
Ltac step :=
  first [ rewrite bind_unfold | rewrite get_spec | rewrite now_spec
        | rewrite ret_spec | rewrite print_spec | rewrite modify_spec ];
  cbv beta iota.

(** ** [create_file_from_template] *)

(** Runs the collision loop of the goal to its [k]-th candidate. *)
Ltac run_loop k :=
  match goal with
  | |- context [resolve_conflicts ?f ?o ?o 1 ?st] =>
      let Hrun := fresh "Hrun" in
      pose proof (resolve_conflicts_least f o 0 k st) as Hrun;
      cbn [candidate] in Hrun;
      rewrite Hrun; cbn [cwd set_ticks];
      [clear Hrun|lia|done|intros; auto with lia]
  end.

(** Writing under a free name: the text is stored, or [open] fails
    and nothing is created, or [open] creates the file and the write
    fails with a part of the text stored. *)
Lemma write_file_free s name text :
  cwd s !! name = None →
  write_file name text s =
    if cwd_writable s
    then (Ok tt, set_cwd (<[name := RegularFile (Some text)]> (cwd s)) s)
    else
      match fault s with
      | AtOpen => (Raise OSError, s)
      | AtWrite kept =>
          (Raise OSError,
           set_cwd (<[name := RegularFile (Some (substring 0 kept text))]> (cwd s)) s)
      end.
Proof.
  intros Hfree. unfold write_file, open_w, f_write. rewrite bind_unfold, Hfree.
  destruct (cwd_writable s) eqn:Hw; cbn [orb].
  - cbn [cwd_writable set_cwd]. rewrite Hw. unfold set_cwd. cbn.
    by rewrite insert_insert_eq.
  - destruct (fault s) as [|kept] eqn:Hf; [done|].
    cbn [cwd_writable fault set_cwd]. rewrite Hw, Hf. unfold set_cwd. cbn.
    by rewrite insert_insert_eq.
Qed.

(** Writing moves the working directory only. *)
Lemma write_file_session name text : preserves same_session (write_file name text).
Proof.
  intros s. unfold write_file, open_w, f_write. rewrite bind_unfold.
  destruct (cwd s !! name) as [[| | |]|]; try done;
    (destruct (cwd_writable s) eqn:Hw; cbn [orb];
     [cbn [cwd_writable set_cwd]; by rewrite Hw|];
     destruct (fault s) as [|kept] eqn:Hf; [done|];
     cbn [cwd_writable fault set_cwd]; by rewrite Hw, Hf).
Qed.

(** A readable template: the function gets as far as writing the final
    text under the first free candidate name, with only the clock
    moved. *)
Lemma create_file_from_template_readable s template_name add_date_prefix content :
  template_dir s !! template_name = Some (RegularFile (Some content)) →
  let original := first_name template_name add_date_prefix (clock s (ticks s)) in
  let text := final_text template_name add_date_prefix (clock s (S (ticks s))) content in
  ∃ k s1,
    cwd s !! candidate original k = None ∧
    (∀ j, (j < k)%nat → is_Some (cwd s !! candidate original j)) ∧
    same_session s s1 ∧ cwd s1 = cwd s ∧ fault s1 = fault s ∧
    create_file_from_template template_name add_date_prefix s
      = (write_file (candidate original k) text;; mret (candidate original k)) s1.
Proof.
  intros Hread original text.
  destruct (candidate_least (cwd s) original) as (k & Hk & Hfree & Hleast).
  exists k.
  cut (∃ s1, same_session s s1 ∧ cwd s1 = cwd s ∧ fault s1 = fault s ∧
             create_file_from_template template_name add_date_prefix s
               = (write_file (candidate original k) text;;
                  mret (candidate original k)) s1).
  { intros (s1 & ? & ? & ? & ?). by exists s1. }
  unfold create_file_from_template. rewrite bind_unfold.
  unfold read_template at 1. rewrite Hread.
  subst original text. unfold first_name, final_text in *.
  destruct (split_name template_name) as [base_name extension]. cbn [snd].
  destruct add_date_prefix.
  - rewrite andb_true_r. case_bool_decide; eexists;
      (split; [|split; [|split;
        [|repeat step; run_loop k; repeat step; reflexivity]]]; done).
  - rewrite andb_false_r. eexists.
    split; [|split; [|split;
      [|repeat step; run_loop k; repeat step; reflexivity]]]; done.
Qed.

(** A readable template and a writable working directory: the file is
    created under the first free candidate name. *)
Lemma create_file_from_template_ok s template_name add_date_prefix content :
  template_dir s !! template_name = Some (RegularFile (Some content)) →
  cwd_writable s = true →
  let original := first_name template_name add_date_prefix (clock s (ticks s)) in
  let text := final_text template_name add_date_prefix (clock s (S (ticks s))) content in
  ∃ k s',
    create_file_from_template template_name add_date_prefix s
      = (Ok (candidate original k), s') ∧
    cwd s !! candidate original k = None ∧
    (∀ j, (j < k)%nat → is_Some (cwd s !! candidate original j)) ∧
    cwd s' = <[candidate original k := RegularFile (Some text)]> (cwd s) ∧
    same_session s s'.
Proof.
  intros Hread Hw original text.
  destruct (create_file_from_template_readable s template_name add_date_prefix
              content Hread) as (k & s1 & Hfree & Hleast & Hsame & Hcwd & _ & Hrun).
  fold original text in Hfree, Hleast, Hrun.
  assert (cwd_writable s1 = true) as Hw1.
  { destruct Hsame as (_ & _ & _ & _ & -> & _). exact Hw. }
  exists k. eexists. split; [|split; [exact Hfree|split; [exact Hleast|]]].
  - rewrite Hrun, bind_unfold, write_file_free by (by rewrite Hcwd).
    rewrite Hw1. reflexivity.
  - cbn [cwd set_cwd]. rewrite Hcwd. split; [done|].
    unfold same_session in *. cbn. intuition congruence.
Qed.

(** The exception of reading a template that cannot be read: that of
    [f.read()] for a file that is not UTF-8, that of [open] otherwise. *)
Lemma create_file_from_template_unreadable s template_name add_date_prefix :
  (∀ content, template_dir s !! template_name ≠ Some (RegularFile (Some content))) →
  create_file_from_template template_name add_date_prefix s =
    (Raise (match template_dir s !! template_name with
            | Some Undecodable => UnicodeDecodeError
            | _ => OSError
            end), s).
Proof.
  intros Hread. unfold create_file_from_template. rewrite bind_unfold.
  unfold read_template at 1.
  destruct (template_dir s !! template_name) as [[[content|]| | |]|] eqn:E; try done.
  by destruct (Hread content).
Qed.

(** Whatever happens, only the clock and the working directory move. *)
Lemma create_file_from_template_session template_name add_date_prefix :
  preserves same_session (create_file_from_template template_name add_date_prefix).
Proof.
  unfold create_file_from_template.
  apply preserves_bind; [apply _| |intros content].
  { apply preserves_unchanged; [apply _|]. intros s. unfold read_template.
    by repeat case_match. }
  destruct (split_name template_name) as [base_name extension].
  apply preserves_bind; [apply _| |intros name0].
  { destruct add_date_prefix; [|by intros s].
    apply preserves_bind; [apply _|by intros s|by intros d s]. }
  apply preserves_bind; [apply _|by intros s|intros s0].
  apply preserves_bind; [apply _| |intros name].
  { apply preserves_unchanged; [apply _|]. apply resolve_conflicts_state. }
  apply preserves_bind; [apply _| |intros text].
  { destruct (_ && _); [|by intros s].
    apply preserves_bind; [apply _|by intros s|by intros d s]. }
  apply preserves_bind; [apply _| |by intros [] s].
  apply write_file_session.
Qed.

Lemma app_assoc_s (a b c : string) : (a +:+ b) +:+ c = a +:+ (b +:+ c).
Proof. induction a as [|x a IH]; [done|]. rewrite !app_cons. by rewrite IH. Qed.

Lemma split_name_app template_name :
  (split_name template_name).1 +:+ (split_name template_name).2 = template_name.
Proof.
  unfold split_name. destruct (rsplit_dot template_name) as [[b e]|] eqn:E; cbn.
  - by apply rsplit_dot_Some in E as [-> _].
  - clear E. induction template_name as [|c t IH]; [done|].
    rewrite app_cons. by rewrite IH.
Qed.

Lemma first_name_plain template_name now :
  first_name template_name false now = template_name.
Proof.
  unfold first_name. pose proof (split_name_app template_name) as H.
  by destruct (split_name template_name).
Qed.


Lemma header_nonempty template_name d content :
  header template_name d +:+ content ≠ content.
Proof.
  intros H. apply (f_equal String.length) in H. unfold header in H.
  rewrite !length_app in H. cbn in H. lia.
Qed.

(** ** Instantiation *)

(** C10: whatever the working directory holds and whatever name the
    loop starts from, the collision loop of [create_file_from_template]
    ends within [size (cwd s) + 1] tests with a name that the directory
    does not hold, a larger budget changes nothing, and the names it
    tries are pairwise distinct. *)
Theorem collision_loop_terminates (s : State) (original_filename : string) :
  (∃ k, (k ≤ size (cwd s))%nat ∧
     cwd s !! candidate original_filename k = None ∧
     ∀ fuel, (size (cwd s) < fuel)%nat →
       resolve_conflicts fuel original_filename original_filename 1 s
         = (Ok (candidate original_filename k), s)) ∧
  (∀ j k, candidate original_filename j = candidate original_filename k → j = k).
Proof.
  split; [|intros j k; apply candidate_inj].
  destruct (candidate_least (cwd s) original_filename) as (k & Hk & Hfree & Hleast).
  exists k. split; [done|]. split; [done|]. intros fuel Hfuel.
  apply (resolve_conflicts_least fuel original_filename 0 k s);
    [lia|done|intros j Hj; apply Hleast; lia].
Qed.

(** C1: the name [create_file_from_template] returns is the first of
    the original name, the original with counter 1, with counter 2, ...
    that the working directory does not hold; every renamed candidate
    is built from the original name and the counter alone; with
    [report.txt] and [report-1.txt] present, copying the template
    [report.txt] without date prefix returns [report-2.txt]. *)
Theorem collision_names_from_original :
  (∀ original_filename k,
     candidate original_filename 0 = original_filename ∧
     candidate original_filename (S k) =
       match rsplit_dot original_filename with
       | Some (name_part, ext_part) =>
           name_part +:+ "-" +:+ pretty (S k) +:+ "." +:+ ext_part
       | None => original_filename +:+ "-" +:+ pretty (S k)
       end) ∧
  (∀ s template_name add_date_prefix content,
     template_dir s !! template_name = Some (RegularFile (Some content)) →
     cwd_writable s = true →
     let original := first_name template_name add_date_prefix (clock s (ticks s)) in
     ∃ k, (create_file_from_template template_name add_date_prefix s).1
            = Ok (candidate original k) ∧
          cwd s !! candidate original k = None ∧
          ∀ j, (j < k)%nat → is_Some (cwd s !! candidate original j)) ∧
  (∀ s content,
     template_dir s !! "report.txt" = Some (RegularFile (Some content)) →
     cwd_writable s = true →
     is_Some (cwd s !! "report.txt") →
     is_Some (cwd s !! "report-1.txt") →
     cwd s !! "report-2.txt" = None →
     (create_file_from_template "report.txt" false s).1 = Ok "report-2.txt").
Proof.
  split; [done|]. split.
  - intros s template_name add_date_prefix content Hread Hw original.
    destruct (create_file_from_template_ok s template_name add_date_prefix content
                Hread Hw) as (k & s' & Hrun & Hfree & Hleast & _).
    exists k. by rewrite Hrun.
  - intros s content Hread Hw H0 H1 H2.
    destruct (create_file_from_template_ok s "report.txt" false content Hread Hw)
      as (k & s' & Hrun & Hfree & Hleast & _).
    rewrite first_name_plain in *. rewrite Hrun. cbn [fst].
    destruct k as [|[|[|k]]].
    + cbn in Hfree. rewrite Hfree in H0. by destruct H0.
    + change (candidate "report.txt" 1) with "report-1.txt" in Hfree.
      rewrite Hfree in H1. by destruct H1.
    + reflexivity.
    + destruct (Hleast 2%nat) as [x Hx]; [lia|].
      change (candidate "report.txt" 2) with "report-2.txt" in Hx. congruence.
Qed.


(** *** Templates with other line ends *)

Lemma stored_bytes_nl text : stored_bytes nl text = text.
Proof.
  induction text as [|c text IH]; [done|]. cbn [stored_bytes].
  destruct (Ascii.eqb_spec c "010"%char) as [->|_]; by rewrite IH.
Qed.

Lemma translate_read_no_cr after_cr data :
  contains_cr (translate_read after_cr data) = false.
Proof.
  revert after_cr. induction data as [|c data IH]; intros after_cr; [done|].
  cbn [translate_read]. destruct (Ascii.eqb c "013"%char) eqn:Ecr.
  - cbn [contains_cr]. change (Ascii.eqb "010"%char "013"%char) with false.
    apply IH.
  - destruct (Ascii.eqb c "010"%char && after_cr); [apply IH|].
    cbn [contains_cr]. rewrite Ecr. apply IH.
Qed.

Lemma rsplit_dot_join base ext :
  contains_dot ext = false →
  rsplit_dot (base +:+ "." +:+ ext) = Some (base, ext).
Proof.
  intros Hext. induction base as [|c base IH].
  - rewrite app_nil. change ("." +:+ ext) with (String "."%char ext).
    cbn [rsplit_dot]. by rewrite (proj2 (rsplit_dot_None ext) Hext).
  - rewrite app_cons. cbn [rsplit_dot]. by rewrite IH.
Qed.

(** C3, where the program departs from it: a template that is not
    given the header is not copied byte for byte when its bytes hold a
    carriage return.  The file is read and written as text, so
    [f.read()] returns it with every line end as a line feed, nothing
    puts the carriage returns back, and where [os.linesep] is the line
    feed the bytes stored for the new file differ from the template's.
    The template is [base.ext], [ext] without a dot; it gets no header
    because the date prefix is not asked for or [.ext] is no prose
    extension. *)
Theorem text_mode_copy_changes_line_ends
    s base ext add_date_prefix data :
  contains_dot ext = false →
  template_dir s !! (base +:+ "." +:+ ext) = Some (text_file data) →
  utf8_valid data = true →
  contains_cr data = true →
  cwd_writable s = true →
  add_date_prefix = false ∨
    (str_lower ("." +:+ ext) ∉ header_safe_extensions) →
  ∃ filename s',
    create_file_from_template (base +:+ "." +:+ ext) add_date_prefix s
      = (Ok filename, s') ∧
    cwd s' !! filename = Some (RegularFile (Some (universal_newlines data))) ∧
    contains_cr (stored_bytes nl (universal_newlines data)) = false ∧
    stored_bytes nl (universal_newlines data) ≠ data.
Proof.
  intros Hext Hread Hvalid Hcr Hw Hplain.
  unfold text_file in Hread. rewrite Hvalid in Hread.
  destruct (create_file_from_template_ok s _ add_date_prefix
              (universal_newlines data) Hread Hw)
    as (k & s' & Hrun & _ & _ & Hcwd & _).
  eexists _, s'. split; [exact Hrun|].
  assert (contains_cr (stored_bytes nl (universal_newlines data)) = false) as Hno.
  { rewrite stored_bytes_nl. apply translate_read_no_cr. }
  split; [|split; [exact Hno|]].
  - rewrite Hcwd, lookup_insert_eq. unfold final_text, split_name.
    rewrite (rsplit_dot_join base ext Hext). cbn [snd].
    destruct Hplain as [->|Hno']; [by rewrite andb_false_r|].
    by rewrite (bool_decide_eq_false_2 _ Hno').
  - intros E. rewrite E in Hno. congruence.
Qed.

(** ** The catalog *)

Lemma init_templates termios_available s :
  templates (after (init termios_available) s)
    = sorted (filter (λ f, is_file f.2 && is_supported_file f.1 = true)
                     (iterdir (template_dir s))).*1 ∧
  selected_index (after (init termios_available) s) = 0 ∧
  use_termios (after (init termios_available) s) = termios_available.
Proof. done. Qed.

(** C5: the catalog that [__init__] loads is in ascending order
    without repetition, and a name is in it exactly when the template
    directory holds a regular file of that name and the name is in
    [NO_EXT_FILES] or its suffix, lowercased, is in [TEXT_EXTENSIONS];
    directories and other entries never are. *)
Theorem catalog_sorted_and_eligible termios_available s :
  let catalog := templates (after (init termios_available) s) in
  StronglySorted String.le catalog ∧
  NoDup catalog ∧
  (∀ name, name ∈ catalog ↔
     ∃ n, template_dir s !! name = Some n ∧ is_file n = true ∧
          (name ∈ NO_EXT_FILES ∨
           str_lower (path_suffix name) ∈ TEXT_EXTENSIONS)) ∧
  (∀ name, template_dir s !! name = Some Directory ∨
           template_dir s !! name = Some Special → name ∉ catalog).
Proof.
  intros catalog. subst catalog.
  destruct (init_templates termios_available s) as (-> & _ & _).
  unfold sorted, iterdir.
  set (kept := filter (λ f, is_file f.2 && is_supported_file f.1 = true)
                      (map_to_list (template_dir s))).
  assert (∀ name,
    name ∈ merge_sort String.le kept.*1 ↔
    ∃ n, template_dir s !! name = Some n ∧ is_file n = true ∧
         (name ∈ NO_EXT_FILES ∨
          str_lower (path_suffix name) ∈ TEXT_EXTENSIONS)) as Hmem.
  { intros name. rewrite merge_sort_Permutation, list_elem_of_fmap. split.
    - intros ([name' n] & -> & Hin). subst kept.
      apply list_elem_of_filter in Hin as [Hel Hin]. cbn [fst snd] in Hel |- *.
      apply elem_of_map_to_list in Hin. exists n. split; [done|].
      apply andb_true_iff in Hel as [? Hsup]. split; [done|].
      unfold is_supported_file in Hsup.
      destruct (decide (name' ∈ NO_EXT_FILES)) as [?|Hno]; [by left|]. right.
      rewrite (bool_decide_eq_false_2 _ Hno) in Hsup.
      by apply bool_decide_eq_true in Hsup.
    - intros (n & Hn & Hfile & Hsup). exists (name, n). split; [done|].
      subst kept. apply list_elem_of_filter. split.
      + cbn [fst snd]. rewrite Hfile. cbn [andb]. unfold is_supported_file.
        destruct (decide (name ∈ NO_EXT_FILES)) as [Hyes|Hno].
        * by rewrite (bool_decide_eq_true_2 _ Hyes).
        * rewrite (bool_decide_eq_false_2 _ Hno). apply bool_decide_eq_true.
          by destruct Hsup.
      + by apply elem_of_map_to_list. }
  split; [apply StronglySorted_merge_sort; apply _|].
  split; [|split; [exact Hmem|]].
  - rewrite merge_sort_Permutation. apply NoDup_fmap_fst.
    + intros name n1 n2 [_ H1]%list_elem_of_filter [_ H2]%list_elem_of_filter.
      apply elem_of_map_to_list in H1, H2. congruence.
    + apply NoDup_filter, NoDup_map_to_list.
  - intros name Hkind Hin. apply Hmem in Hin as (n & Hn & Hfile & _).
    destruct Hkind as [H|H]; rewrite H in Hn; by simplify_eq.
Qed.

(** ** The selection *)

#[local] Instance same_selection_refl : Reflexive same_selection.
Proof. by intros s. Qed.

#[local] Instance same_selection_trans : Transitive same_selection.
Proof. unfold same_selection. intros s1 s2 s3 ??. intuition congruence. Qed.

#[local] Instance steady_refl : Reflexive steady.
Proof. by intros s. Qed.

#[local] Instance steady_trans : Transitive steady.
Proof. unfold steady. intros s1 s2 s3 ??. intuition congruence. Qed.

Lemma same_selection_steady s s' : same_selection s s' → steady s s'.
Proof.
  intros (Ht & Hi & Hu & He). split; [done|]. split; [done|].
  split; [|done]. unfold in_range. by rewrite Ht, Hi.
Qed.

Lemma same_session_selection s s' : same_session s s' → same_selection s s'.
Proof. unfold same_session, same_selection. tauto. Qed.

(** Decides the tests on string literals in the goal. *)
Ltac literals :=
  repeat match goal with
  | |- context [bool_decide ?P] =>
      let b := eval vm_compute in (bool_decide P) in
      lazymatch b with
      | true => change (bool_decide P) with true
      | false => change (bool_decide P) with false
      end
  end;
  cbv beta iota; cbn [andb orb negb].

Lemma nonempty_true l : l ≠ [] → nonempty l = true.
Proof. intros H. unfold nonempty. by rewrite bool_decide_eq_false_2. Qed.

Lemma nonempty_spec l : nonempty l = true → l ≠ [].
Proof. unfold nonempty. by case_bool_decide. Qed.

Lemma print_selection o : preserves same_selection (print o).
Proof. by intros s. Qed.

Lemma read_event_selection at_end :
  preserves same_selection (read_event at_end).
Proof. intros s. unfold read_event. by repeat case_match. Qed.

Lemma input_selection : preserves same_selection input.
Proof.
  apply preserves_bind; [apply _|apply print_selection|intros _].
  apply read_event_selection.
Qed.

Lemma getitem_selection l i : preserves same_selection (getitem l i).
Proof. intros s. unfold getitem. by repeat case_match. Qed.

Lemma instantiate_selection add_date_prefix :
  preserves same_selection (instantiate add_date_prefix).
Proof.
  unfold instantiate.
  apply preserves_bind; [apply _|by intros s|intros s0].
  apply preserves_bind; [apply _|apply getitem_selection|intros template].
  apply preserves_bind; [apply _| |intros filename].
  { intros s. apply same_session_selection, create_file_from_template_session. }
  apply preserves_bind; [apply _|apply print_selection|by intros _ s].
Qed.

Lemma preserves_weaken {A} (R R' : relation State) (m : M A) :
  (∀ s s', R s s' → R' s s') → preserves R m → preserves R' m.
Proof. intros HR Hm s. apply HR, Hm. Qed.

(** The two clamped moves keep a valid selection valid. *)
Lemma move_in_range s i :
  templates s ≠ [] →
  (i = Z.max 0 (selected_index s - 1) ∨
   i = Z.min (Z.of_nat (length (templates s)) - 1) (selected_index s + 1)) →
  steady s (set_selected_index i s).
Proof.
  intros Hne Hi. split; [done|]. split; [done|]. split; [|done].
  intros Hin _. specialize (Hin Hne). cbn. lia.
Qed.

Lemma handle_key_steady key : preserves steady (handle_key key).
Proof.
  intros s. unfold handle_key. rewrite bind_unfold, get_spec. cbv beta iota.
  case_bool_decide; [done|].
  destruct (bool_decide (key = esc +:+ "[A") && nonempty (templates s)) eqn:Eup.
  { apply andb_true_iff in Eup as [_ Hne%nonempty_spec].
    apply move_in_range; auto. }
  destruct (bool_decide (key = esc +:+ "[B") && nonempty (templates s)) eqn:Edown.
  { apply andb_true_iff in Edown as [_ Hne%nonempty_spec].
    apply move_in_range; auto. }
  destruct (bool_decide (key = cr) && nonempty (templates s)).
  { apply same_selection_steady, instantiate_selection. }
  destruct (bool_decide (key = "c") && nonempty (templates s)); [|done].
  apply same_selection_steady, instantiate_selection.
Qed.

Lemma acknowledge_selection o :
  preserves same_selection (print o;; input;; mret true).
Proof.
  apply preserves_bind; [apply _|apply print_selection|intros _].
  apply preserves_bind; [apply _|apply input_selection|by intros _ s].
Qed.

Lemma handle_fallback_command_steady command :
  preserves steady (handle_fallback_command command).
Proof.
  intros s. unfold handle_fallback_command.
  set (c := if bool_decide (command = EmptyString) then _ else _). clearbody c.
  rewrite bind_unfold, get_spec. cbv beta iota.
  case_bool_decide; [done|].
  destruct (bool_decide (c ∈ ["up"; "u"]) && nonempty (templates s)) eqn:Eup.
  { apply andb_true_iff in Eup as [_ Hne%nonempty_spec].
    apply move_in_range; auto. }
  destruct (bool_decide (c ∈ ["down"; "d"]) && nonempty (templates s)) eqn:Edown.
  { apply andb_true_iff in Edown as [_ Hne%nonempty_spec].
    apply move_in_range; auto. }
  destruct (str_isdigit c && nonempty (templates s)) eqn:Edigit.
  { destruct (str_int c) as [n|]; [|done].
    destruct ((0 <=? n - 1) && (n - 1 <? Z.of_nat (length (templates s)))) eqn:Ein;
      [|done].
    apply andb_true_iff in Ein as [?%Z.leb_le ?%Z.ltb_lt].
    repeat step. cbn [snd].
    split; [done|]. split; [done|]. split; [|done]. intros _ _. cbn. lia. }
  destruct (bool_decide (c ∈ ["enter"; "e"; EmptyString]) && nonempty (templates s)).
  { apply same_selection_steady, instantiate_selection. }
  destruct (bool_decide (c ∈ ["copy"; "c"]) && nonempty (templates s)).
  { apply same_selection_steady, instantiate_selection. }
  destruct (bool_decide (c ∈ ["help"; "h"; "?"]));
    apply same_selection_steady, acknowledge_selection.
Qed.

Lemma iteration_steady : preserves steady iteration.
Proof.
  unfold iteration.
  apply preserves_bind; [apply _| |intros _].
  { intros s. apply same_selection_steady. by unfold draw_ui. }
  apply preserves_bind; [apply _|by intros s|intros s0].
  destruct (use_termios s0).
  - apply preserves_bind; [apply _| |intros key; apply handle_key_steady].
    intros s. apply same_selection_steady, read_event_selection.
  - apply preserves_bind; [apply _| |intros c; apply handle_fallback_command_steady].
    intros s. apply same_selection_steady. unfold get_command_fallback.
    rewrite bind_unfold, get_spec. cbv beta iota.
    apply (preserves_bind same_selection); [|by intros ??].
    case_bool_decide; [apply input_selection|].
    apply preserves_bind; [apply _|apply print_selection|intros _].
    apply input_selection.
Qed.

Lemma main_loop_steady fuel : preserves steady (main_loop fuel).
Proof.
  induction fuel as [|fuel IH]; [by intros s|]. cbn [main_loop].
  apply preserves_bind; [apply _|apply iteration_steady|intros [|]];
    [apply IH|by intros s].
Qed.

Lemma run_steady fuel : preserves steady (run fuel).
Proof.
  intros s. unfold run, finally, except_pass.
  pose proof (main_loop_steady fuel s) as H.
  destruct (main_loop fuel s) as [[[]|e| |] s1]; cbn in H |- *; try done.
  destruct (decide (e = KeyboardInterrupt)); cbn; done.
Qed.

(** C6: [__init__] sets the selection to 0, which is a valid index of
    every catalog that has entries; every key of the raw mode and every
    command of the fallback mode leaves the catalog as it is and a valid
    selection valid; so does the whole session, whatever is typed. *)
Theorem selection_stays_in_range :
  (∀ termios_available s,
     selected_index (after (init termios_available) s) = 0 ∧
     in_range (after (init termios_available) s)) ∧
  (∀ key s, in_range s →
     templates (after (handle_key key) s) = templates s ∧
     in_range (after (handle_key key) s)) ∧
  (∀ command s, in_range s →
     templates (after (handle_fallback_command command) s) = templates s ∧
     in_range (after (handle_fallback_command command) s)) ∧
  (∀ termios_available fuel s,
     in_range (after (main termios_available fuel) s)).
Proof.
  assert (∀ termios_available s, in_range (after (init termios_available) s))
    as Hinit.
  { intros ta s. unfold in_range.
    destruct (init_templates ta s) as (_ & -> & _).
    destruct (templates _); [done|]. intros _. cbn [length]. lia. }
  split; [|split; [|split]].
  - intros ta s. split; [apply init_templates|apply Hinit].
  - intros key s Hin. destruct (handle_key_steady key s) as (? & ? & ? & ?). auto.
  - intros command s Hin.
    destruct (handle_fallback_command_steady command s) as (? & ? & ? & ?). auto.
  - intros ta fuel s. unfold after, main. rewrite bind_unfold.
    change (init ta s) with (Ok tt, after (init ta) s). cbv beta iota.
    destruct (run_steady fuel (after (init ta) s)) as (_ & _ & H & _).
    apply H, Hinit.
Qed.

(** ** Navigation *)

Lemma handle_key_down s :
  templates s ≠ [] →
  handle_key (esc +:+ "[B") s =
    (Ok true, set_selected_index
       (Z.min (Z.of_nat (length (templates s)) - 1) (selected_index s + 1)) s).
Proof.
  intros Hne%nonempty_true. unfold handle_key. repeat step. literals.
  rewrite Hne. cbn [andb]. by repeat step.
Qed.

Lemma handle_key_up s :
  templates s ≠ [] →
  handle_key (esc +:+ "[A") s =
    (Ok true, set_selected_index (Z.max 0 (selected_index s - 1)) s).
Proof.
  intros Hne%nonempty_true. unfold handle_key. repeat step. literals.
  rewrite Hne. cbn [andb]. by repeat step.
Qed.

Lemma handle_fallback_down s command :
  templates s ≠ [] → command ∈ ["down"; "d"] →
  handle_fallback_command command s =
    (Ok true, set_selected_index
       (Z.min (Z.of_nat (length (templates s)) - 1) (selected_index s + 1)) s).
Proof.
  intros Hne%nonempty_true Hc. unfold handle_fallback_command.
  apply list_elem_of_In in Hc. cbn in Hc.
  destruct Hc as [<-|[<-|[]]]; repeat step; literals; rewrite Hne;
    cbn [andb]; by repeat step.
Qed.

Lemma handle_fallback_up s command :
  templates s ≠ [] → command ∈ ["up"; "u"] →
  handle_fallback_command command s =
    (Ok true, set_selected_index (Z.max 0 (selected_index s - 1)) s).
Proof.
  intros Hne%nonempty_true Hc. unfold handle_fallback_command.
  apply list_elem_of_In in Hc. cbn in Hc.
  destruct Hc as [<-|[<-|[]]]; repeat step; literals; rewrite Hne;
    cbn [andb]; by repeat step.
Qed.

Lemma move_down_spec m s :
  m ∈ move_down → templates s ≠ [] →
  m s = (Ok true, set_selected_index
           (Z.min (Z.of_nat (length (templates s)) - 1) (selected_index s + 1)) s).
Proof.
  intros Hm Hne. apply list_elem_of_In in Hm. cbn in Hm.
  destruct Hm as [<-|[<-|[<-|[]]]].
  - by apply handle_key_down.
  - apply handle_fallback_down; [done|set_solver].
  - apply handle_fallback_down; [done|set_solver].
Qed.

Lemma move_up_spec m s :
  m ∈ move_up → templates s ≠ [] →
  m s = (Ok true, set_selected_index (Z.max 0 (selected_index s - 1)) s).
Proof.
  intros Hm Hne. apply list_elem_of_In in Hm. cbn in Hm.
  destruct Hm as [<-|[<-|[<-|[]]]].
  - by apply handle_key_up.
  - apply handle_fallback_up; [done|set_solver].
  - apply handle_fallback_up; [done|set_solver].
Qed.

Lemma move_down_iter m s k :
  m ∈ move_down → templates s ≠ [] →
  selected_index s ≤ Z.of_nat (length (templates s)) - 1 →
  templates (Nat.iter k (after m) s) = templates s ∧
  selected_index (Nat.iter k (after m) s) =
    Z.min (Z.of_nat (length (templates s)) - 1) (selected_index s + Z.of_nat k).
Proof.
  intros Hm Hne Hle. induction k as [|k [IHt IHi]]; [cbn; split; [done|lia]|].
  rewrite Nat.iter_succ. set (sk := Nat.iter k (after m) s) in *.
  unfold after at 1 2.
  rewrite (move_down_spec m) by (done || by rewrite IHt).
  cbn [snd templates selected_index set_selected_index].
  rewrite IHt, IHi. split; [done|]. lia.
Qed.

Lemma move_up_iter m s k :
  m ∈ move_up → templates s ≠ [] → 0 ≤ selected_index s →
  templates (Nat.iter k (after m) s) = templates s ∧
  selected_index (Nat.iter k (after m) s) =
    Z.max 0 (selected_index s - Z.of_nat k).
Proof.
  intros Hm Hne Hle. induction k as [|k [IHt IHi]]; [cbn; split; [done|lia]|].
  rewrite Nat.iter_succ. set (sk := Nat.iter k (after m) s) in *.
  unfold after at 1 2.
  rewrite (move_up_spec m) by (done || by rewrite IHt).
  cbn [snd templates selected_index set_selected_index].
  rewrite IHt, IHi. split; [done|]. lia.
Qed.

(** C7: in a catalog with [n > 0] entries and from a valid selection
    [i], the down key and the down commands set the selection to
    [min (n - 1) (i + 1)] and the up key and the up commands to
    [max 0 (i - 1)]; [k] moves down lead to [min (n - 1) (i + k)] and
    [k] moves up to [max 0 (i - k)], so the selection reaches [n - 1]
    after [n - 1 - i] moves down, [0] after [i] moves up, and stays
    there under any further move of the same kind. *)
Theorem moves_clamp_at_the_ends s :
  templates s ≠ [] → in_range s →
  let n := Z.of_nat (length (templates s)) in
  let i := selected_index s in
  (∀ m, m ∈ move_down →
     m s = (Ok true, set_selected_index (Z.min (n - 1) (i + 1)) s) ∧
     (∀ k, selected_index (Nat.iter k (after m) s) = Z.min (n - 1) (i + Z.of_nat k)) ∧
     (∀ k, n - 1 - i ≤ Z.of_nat k → selected_index (Nat.iter k (after m) s) = n - 1) ∧
     (i = n - 1 → selected_index (after m s) = i)) ∧
  (∀ m, m ∈ move_up →
     m s = (Ok true, set_selected_index (Z.max 0 (i - 1)) s) ∧
     (∀ k, selected_index (Nat.iter k (after m) s) = Z.max 0 (i - Z.of_nat k)) ∧
     (∀ k, i ≤ Z.of_nat k → selected_index (Nat.iter k (after m) s) = 0) ∧
     (i = 0 → selected_index (after m s) = i)).
Proof.
  intros Hne Hin n i. specialize (Hin Hne). fold n i in Hin. split; intros m Hm.
  - assert (∀ k, selected_index (Nat.iter k (after m) s)
                 = Z.min (n - 1) (i + Z.of_nat k)) as Hiter.
    { intros k. destruct (move_down_iter m s k Hm Hne) as [_ ->]; [lia|done]. }
    split; [by apply move_down_spec|]. split; [exact Hiter|].
    split; [intros k Hk; rewrite Hiter; lia|].
    intros Hi. specialize (Hiter 1%nat). cbn in Hiter. lia.
  - assert (∀ k, selected_index (Nat.iter k (after m) s)
                 = Z.max 0 (i - Z.of_nat k)) as Hiter.
    { intros k. destruct (move_up_iter m s k Hm Hne) as [_ ->]; [lia|done]. }
    split; [by apply move_up_spec|]. split; [exact Hiter|].
    split; [intros k Hk; rewrite Hiter; lia|].
    intros Hi. specialize (Hiter 1%nat). cbn in Hiter. lia.
Qed.

(** A command made of digits is none of the words the earlier
    branches of [handle_fallback_command] test for. *)
Lemma digits_not_a_word `{!StrMethodsAscii SM} command :
  str_isdigit command = true →
  command ≠ EmptyString ∧ (command ∉ ["q"; "quit"; "exit"]) ∧
  (command ∉ ["up"; "u"]) ∧ (command ∉ ["down"; "d"]).
Proof.
  intros Hd.
  assert (∀ w, is_ascii w = true → ascii_isdigit w = false → command ≠ w) as Hw.
  { intros w Ha Hn ->. rewrite (isdigit_on_ascii w Ha) in Hd. congruence. }
  split; [apply Hw; reflexivity|].
  repeat split; intros Hin; apply list_elem_of_In in Hin; cbn in Hin;
    repeat (destruct Hin as [<-|Hin]; [eapply Hw; [..|reflexivity]; reflexivity|]);
    done.
Qed.

(** C8: in a catalog with [n > 0] entries, a command of digits whose
    value is [k] sets the selection to [k - 1] when [1 ≤ k ≤ n] and
    otherwise changes nothing at all: no state, no output, no error. *)
Theorem jump_to_number `{!StrMethodsAscii SM} s command k :
  templates s ≠ [] →
  str_isdigit command = true →
  str_int command = Some k →
  let n := Z.of_nat (length (templates s)) in
  handle_fallback_command command s =
    (Ok true, if bool_decide (1 ≤ k ≤ n) then set_selected_index (k - 1) s else s) ∧
  ((1 ≤ k ≤ n) →
   selected_index (after (handle_fallback_command command) s) = k - 1) ∧
  ((k ≤ 0 ∨ n < k) → after (handle_fallback_command command) s = s).
Proof.
  intros Hne%nonempty_true Hd Hk n.
  destruct (digits_not_a_word command Hd) as (H0 & Hq & Hu & Hdn).
  assert (handle_fallback_command command s =
    (Ok true, if bool_decide (1 ≤ k ≤ n) then set_selected_index (k - 1) s else s))
    as Hrun.
  { unfold handle_fallback_command.
    rewrite (bool_decide_eq_false_2 (command = EmptyString)) by done.
    repeat step.
    rewrite (bool_decide_eq_false_2 (command ∈ ["q"; "quit"; "exit"])) by done.
    rewrite (bool_decide_eq_false_2 (command ∈ ["up"; "u"])) by done.
    rewrite (bool_decide_eq_false_2 (command ∈ ["down"; "d"])) by done.
    cbn [andb]. rewrite Hd, Hne, Hk. cbn [andb]. fold n.
    case_bool_decide as Hin.
    - rewrite (proj2 (Z.leb_le 0 (k - 1))) by lia.
      rewrite (proj2 (Z.ltb_lt (k - 1) n)) by lia. cbn [andb]. by repeat step.
    - destruct (Z.leb_spec 0 (k - 1)), (Z.ltb_spec (k - 1) n); cbn [andb];
        try (by repeat step). lia. }
  split; [exact Hrun|]. unfold after. rewrite Hrun. cbn [snd]. split.
  - intros Hin. by rewrite bool_decide_eq_true_2.
  - intros Hout. rewrite bool_decide_eq_false_2; [done|lia].
Qed.

(** ** The empty catalog *)

(** C9: with an empty catalog, every key of the raw mode other than
    [q] leaves the state untouched and the loop running; in the fallback
    mode [q], [quit] and [exit] leave the loop, and every other command
    (the navigation words, the numbers, [enter], [copy] and the empty
    line among them) gets the help text when it asks for help and the
    hint for an unknown command otherwise, then waits for a line; no
    command writes a file or moves the selection. *)
Theorem empty_catalog_commands s :
  templates s = [] →
  (∀ key, handle_key key s = (Ok (negb (bool_decide (key = "q"))), s)) ∧
  (∀ command,
     let c := if bool_decide (command = EmptyString) then "enter" else command in
     handle_fallback_command command s =
       if bool_decide (c ∈ ["q"; "quit"; "exit"]) then (Ok false, s)
       else (print (if bool_decide (c ∈ ["help"; "h"; "?"]) then HelpText
                    else UnknownHint false);;
             input;; mret true) s) ∧
  (∀ command,
     let s' := after (handle_fallback_command command) s in
     cwd s' = cwd s ∧ templates s' = templates s ∧
     selected_index s' = selected_index s ∧
     ∀ filename, Created filename ∈ stdout s' → Created filename ∈ stdout s).
Proof.
  intros Hempty.
  assert (∀ command,
     let c := if bool_decide (command = EmptyString) then "enter" else command in
     handle_fallback_command command s =
       if bool_decide (c ∈ ["q"; "quit"; "exit"]) then (Ok false, s)
       else (print (if bool_decide (c ∈ ["help"; "h"; "?"]) then HelpText
                    else UnknownHint false);;
             input;; mret true) s) as Hfallback.
  { intros command c. unfold handle_fallback_command. fold c. clearbody c.
    repeat step. rewrite Hempty. unfold nonempty.
    rewrite (bool_decide_eq_true_2 (@nil string = [])) by done. cbn [negb].
    rewrite !andb_false_r.
    destruct (bool_decide (c ∈ ["q"; "quit"; "exit"])); [done|].
    by destruct (bool_decide (c ∈ ["help"; "h"; "?"])). }
  split; [|split; [exact Hfallback|]].
  - intros key. unfold handle_key. repeat step. rewrite Hempty. unfold nonempty.
    rewrite (bool_decide_eq_true_2 (@nil string = [])) by done. cbn [negb].
    rewrite !andb_false_r. by case_bool_decide.
  - intros command s'. subst s'. unfold after. rewrite Hfallback.
    destruct (bool_decide (_ ∈ ["q"; "quit"; "exit"])); [done|].
    set (o := if bool_decide _ then HelpText else UnknownHint false).
    assert (∀ filename, o ≠ Created filename) as Ho.
    { intros filename. subst o. by case_bool_decide. }
    clearbody o. unfold input. repeat step. unfold read_event.
    cbn [stdin set_stdout].
    assert (∀ filename,
      Created filename ∈ (stdout s ++ [o]) ++ [Prompt] →
      Created filename ∈ stdout s) as Hout.
    { intros filename. rewrite !elem_of_app, !list_elem_of_singleton.
      intros [[?|?]|?]; [done|by destruct (Ho filename)|done]. }
    destruct (stdin s) as [|[line|] rest]; repeat step; cbn;
      try destruct (stdin_end s); cbn; auto.
Qed.

(** ** Failures of instantiation *)

Lemma at_most_one_new_file_keeps s s' name n :
  at_most_one_new_file s s' →
  cwd s !! name = Some n → cwd s' !! name = Some n.
Proof.
  intros [->|(filename & text & Hfree & ->)] Hn; [done|].
  rewrite lookup_insert_ne; [done|]. congruence.
Qed.

Lemma create_file_from_template_fails s template_name add_date_prefix :
  instantiation_fails s template_name →
  ∃ s', create_file_from_template template_name add_date_prefix s
          = (Raise (failure s template_name), s') ∧
        (cwd s' = cwd s ∨ failure s template_name = OSError ∧ one_new_file s s') ∧
        same_session s s'.
Proof.
  intros Hfail. unfold failure.
  destruct (template_dir s !! template_name) as [[[content|]| | |]|] eqn:Hread;
    try (exists s; split; [|split; [by left|done]];
         rewrite create_file_from_template_unreadable
           by (intros c; congruence);
         by rewrite Hread).
  destruct Hfail as [Hfail|Hw]; [by destruct (Hfail content)|].
  destruct (create_file_from_template_readable s template_name add_date_prefix
              content Hread) as (k & s1 & Hfree & _ & Hsame & Hcwd & Hfault & Hrun).
  assert (cwd_writable s1 = false) as Hw1.
  { destruct Hsame as (_ & _ & _ & _ & -> & _). exact Hw. }
  rewrite Hrun, bind_unfold, write_file_free by (by rewrite Hcwd).
  rewrite Hw1, Hfault. destruct (fault s) as [|kept].
  - exists s1. split; [done|]. split; [by left|done].
  - eexists. split; [reflexivity|]. split.
    + right. split; [done|]. eexists _, _. split; [exact Hfree|].
      cbn [cwd set_cwd]. by rewrite Hcwd.
    + unfold same_session in *. cbn. intuition congruence.
Qed.

Lemma getitem_selected s template_name :
  0 ≤ selected_index s →
  templates s !! Z.to_nat (selected_index s) = Some template_name →
  getitem (templates s) (selected_index s) s = (Ok template_name, s).
Proof.
  intros H0 Hsel. pose proof (lookup_lt_Some _ _ _ Hsel) as Hlt.
  unfold getitem. rewrite (proj2 (Z.ltb_ge _ _) H0).
  rewrite (proj2 (Z.leb_le _ _) H0).
  rewrite (proj2 (Z.ltb_lt (selected_index s) _)) by lia.
  cbn [andb]. by rewrite Hsel.
Qed.

Lemma instantiate_fails s add_date_prefix template_name :
  0 ≤ selected_index s →
  templates s !! Z.to_nat (selected_index s) = Some template_name →
  instantiation_fails s template_name →
  ∃ s', instantiate add_date_prefix s = (Raise (failure s template_name), s') ∧
        at_most_one_new_file s s' ∧ same_session s s'.
Proof.
  intros H0 Hsel Hfail.
  destruct (create_file_from_template_fails s template_name add_date_prefix Hfail)
    as (s' & Hrun & Hcwd & ?).
  exists s'. split; [|split; [|done]].
  2: { destruct Hcwd as [?|[_ ?]]; [by left|by right]. }
  unfold instantiate. repeat step.
  rewrite (getitem_selected s template_name) by done. repeat step.
  by rewrite Hrun.
Qed.

(** The instantiating commands of the fallback mode. *)
Lemma handle_fallback_instantiate `{!StrMethodsAscii SM} s command :
  templates s ≠ [] →
  command ∈ ["enter"; "e"; EmptyString; "copy"; "c"] →
  handle_fallback_command command s
    = instantiate (bool_decide (command ∈ ["enter"; "e"; EmptyString])) s.
Proof.
  intros Hne%nonempty_true Hc. unfold handle_fallback_command.
  apply list_elem_of_In in Hc. cbn in Hc.
  destruct Hc as [<-|[<-|[<-|[<-|[<-|[]]]]]]; repeat step; literals;
    rewrite Hne; cbn [andb]; rewrite isdigit_on_ascii by reflexivity;
    reflexivity.
Qed.

(** The instantiating keys of the raw mode. *)
Lemma handle_key_instantiate s key :
  templates s ≠ [] → key ∈ [cr; "c"] →
  handle_key key s = instantiate (bool_decide (key = cr)) s.
Proof.
  intros Hne%nonempty_true Hc. unfold handle_key.
  apply list_elem_of_In in Hc. cbn in Hc.
  destruct Hc as [<-|[<-|[]]]; repeat step; literals; rewrite Hne; reflexivity.
Qed.

(** C4, as the program has it: when the selected template cannot be
    read or the working directory cannot be written, the key or command
    that instantiates ends the session with the exception of the failing
    operation leaving [run], which handles [KeyboardInterrupt] only: the
    loop stops, the [finally] clause resets the formatting, and the
    program prints the frame, the prompt of the fallback mode and the
    reset, so no confirmation and no report of its own.  The input read
    is the one key or command.  Every entry the working directory had is
    still there; when [open] has created the file before the write
    fails, that one file is new. *)
Theorem failed_instantiation_propagates `{!StrMethodsAscii SM}
    s template_name line rest fuel :
  0 ≤ selected_index s →
  templates s !! Z.to_nat (selected_index s) = Some template_name →
  instantiation_fails s template_name →
  stdin s = Text line :: rest →
  (if use_termios s then line ∈ [cr; "c"]
   else str_lower (str_strip line) ∈ ["enter"; "e"; EmptyString; "copy"; "c"]) →
  ∃ s',
    run (S fuel) s = (Raise (failure s template_name), s') ∧
    failure s template_name ≠ KeyboardInterrupt ∧
    at_most_one_new_file s s' ∧
    stdin s' = rest ∧
    stdout s' =
      stdout s ++
      Frame (templates s) (selected_index s) (use_termios s)
      :: (if use_termios s then [] else [CommandsLine; Prompt]) ++ [Reset].
Proof.
  intros H0 Hsel Hfail Hin Hline.
  assert (templates s ≠ []) as Hne by (intros E; by rewrite E in Hsel).
  assert (failure s template_name ≠ KeyboardInterrupt) as Hexn.
  { unfold failure. by repeat case_match. }
  cut (∃ s1, iteration s = (Raise (failure s template_name), s1) ∧
         at_most_one_new_file s s1 ∧ stdin s1 = rest ∧
         stdout s1 = stdout s ++
           Frame (templates s) (selected_index s) (use_termios s)
           :: (if use_termios s then [] else [CommandsLine; Prompt])).
  { intros (s1 & Hit & Hcwd & Hrest & Hout). eexists. split.
    - unfold run, finally, except_pass. cbn [main_loop]. rewrite bind_unfold, Hit.
      cbv beta iota. rewrite decide_False by exact Hexn. reflexivity.
    - cbn. rewrite Hout. split; [done|]. split; [exact Hcwd|].
      split; [exact Hrest|]. by rewrite <-app_assoc. }
  unfold iteration, draw_ui. repeat step. cbn [use_termios set_stdout].
  destruct (use_termios s).
  - unfold get_key_termios. step. unfold read_event at 1.
    cbn [stdin set_stdout]. rewrite Hin. cbv beta iota.
    rewrite handle_key_instantiate by done.
    edestruct (instantiate_fails (set_stdin rest
        (set_stdout (stdout s ++ [Frame (templates s) (selected_index s) true]) s)))
      as (s1 & -> & Hcwd & Hsame); [exact H0|exact Hsel|exact Hfail|].
    exists s1. split; [done|]. split; [exact Hcwd|].
    destruct Hsame as (_ & _ & _ & _ & _ & _ & Hstdin & Hstdout & _).
    by rewrite Hstdin, Hstdout.
  - unfold get_command_fallback. repeat step. cbn [templates set_stdout].
    rewrite (bool_decide_eq_false_2 (templates s = [])) by done.
    unfold input. repeat step. unfold read_event at 1.
    cbn [stdin set_stdout]. rewrite Hin. cbv beta iota. repeat step.
    rewrite handle_fallback_instantiate by done.
    edestruct (instantiate_fails (set_stdin rest
        (set_stdout (((stdout s ++ [Frame (templates s) (selected_index s) false])
                      ++ [CommandsLine]) ++ [Prompt]) s)))
      as (s1 & -> & Hcwd & Hsame); [exact H0|exact Hsel|exact Hfail|].
    exists s1. split; [done|]. split; [exact Hcwd|].
    destruct Hsame as (_ & _ & _ & _ & _ & _ & Hstdin & Hstdout & _).
    rewrite Hstdin, Hstdout. cbn. by rewrite <-!app_assoc.
Qed.

(** * Further properties *)

(** ** [create_file_from_template] and the working directory *)

Lemma readable_or_fails s template_name :
  instantiation_fails s template_name ∨
  ∃ content, template_dir s !! template_name = Some (RegularFile (Some content)) ∧
             cwd_writable s = true.
Proof.
  unfold instantiation_fails.
  destruct (cwd_writable s); [|by left; right].
  destruct (template_dir s !! template_name) as [[[content|]| | |]|] eqn:E;
    eauto; left; left; intros c; congruence.
Qed.

(** X1: whatever [create_file_from_template] is asked and however it
    ends, every entry the working directory had is still there unchanged.
    When it returns a name, that name was free and the directory has
    gained exactly that one file; when it raises, which it does with the
    exception of the operation that fails, the directory is as it was or
    has gained the one file that [open] created, under a name that was
    free, before the write failed.  It never runs out of the budget of
    the collision loop. *)
Theorem create_never_overwrites s template_name add_date_prefix :
  let r := create_file_from_template template_name add_date_prefix s in
  (∀ name n, cwd s !! name = Some n → cwd r.2 !! name = Some n) ∧
  ((∃ filename text,
      r.1 = Ok filename ∧ cwd s !! filename = None ∧
      cwd r.2 = <[filename := RegularFile (Some text)]> (cwd s) ∧
      size (cwd r.2) = S (size (cwd s))) ∨
   (r.1 = Raise (failure s template_name) ∧
    instantiation_fails s template_name ∧
    at_most_one_new_file s r.2)).
Proof.
  intros r. subst r.
  destruct (readable_or_fails s template_name) as [Hfail|(content & Hread & Hw)].
  - destruct (create_file_from_template_fails s template_name add_date_prefix Hfail)
      as (s' & -> & Hcwd & _). cbn [fst snd].
    assert (at_most_one_new_file s s') as Hmost.
    { destruct Hcwd as [?|[_ ?]]; [by left|by right]. }
    split; [|by right].
    intros name n. by apply at_most_one_new_file_keeps.
  - destruct (create_file_from_template_ok s template_name add_date_prefix content
                Hread Hw) as (k & s' & -> & Hfree & _ & Hcwd & _).
    cbn [fst snd]. rewrite Hcwd. split.
    + intros name n Hn. rewrite lookup_insert_ne; [done|]. congruence.
    + left. eexists _, _. split; [done|]. split; [done|]. split; [done|].
      by apply map_size_insert_None.
Qed.

(** X2: copying a readable template without date prefix into a
    writable working directory that has no entry of the template's name
    creates the file under exactly that name, with the template's text. *)
Theorem copy_to_free_name s template_name content :
  template_dir s !! template_name = Some (RegularFile (Some content)) →
  cwd_writable s = true →
  cwd s !! template_name = None →
  ∃ s', create_file_from_template template_name false s = (Ok template_name, s') ∧
        cwd s' = <[template_name := RegularFile (Some content)]> (cwd s).
Proof.
  intros Hread Hw Hnone.
  destruct (create_file_from_template_ok s template_name false content Hread Hw)
    as (k & s' & Hrun & Hfree & Hleast & Hcwd & _).
  rewrite first_name_plain in *.
  assert (k = 0%nat) as ->.
  { destruct k as [|k]; [done|]. destruct (Hleast 0%nat) as [x Hx]; [lia|].
    cbn in Hx. congruence. }
  exists s'. split; [exact Hrun|]. rewrite Hcwd. cbn [candidate].
  unfold final_text. by rewrite andb_false_r.
Qed.

(** ** Names *)

Lemma contains_dot_app a b :
  contains_dot (a +:+ b) = contains_dot a || contains_dot b.
Proof.
  induction a as [|c a IH]; [done|]. rewrite app_cons. cbn.
  by destruct (Ascii.eqb c ".").
Qed.

Lemma rsplit_dot_app a b :
  contains_dot a = false →
  rsplit_dot (a +:+ b) =
    match rsplit_dot b with
    | Some (h, t) => Some (a +:+ h, t)
    | None => None
    end.
Proof.
  induction a as [|c a IH]; intros Hdot.
  - rewrite app_nil. by destruct (rsplit_dot b) as [[??]|].
  - cbn in Hdot. destruct (Ascii.eqb c ".") eqn:Ec; [done|].
    rewrite app_cons. cbn. rewrite (IH Hdot), Ec.
    by destruct (rsplit_dot b) as [[??]|].
Qed.

(** X3: splitting a template name into base name and extension loses
    nothing: the two parts put together are the name again; the extension
    is empty exactly when the name has no dot, and otherwise it is a dot
    followed by text without a dot, the base name being everything before
    the last dot. *)
Theorem split_name_round_trip template_name :
  let '(base_name, extension) := split_name template_name in
  base_name +:+ extension = template_name ∧
  (contains_dot template_name = false →
     base_name = template_name ∧ extension = EmptyString) ∧
  (contains_dot template_name = true →
     ∃ ext, extension = "." +:+ ext ∧ contains_dot ext = false).
Proof.
  pose proof (split_name_app template_name) as Happ. unfold split_name in *.
  destruct (rsplit_dot template_name) as [[b e]|] eqn:E; cbn [fst snd] in Happ.
  - split; [done|]. split.
    + intros Hdot. apply rsplit_dot_None in Hdot. congruence.
    + intros _. exists e. split; [done|]. by apply rsplit_dot_Some in E as [_ ?].
  - split; [done|]. split; [done|].
    intros Hdot. apply rsplit_dot_None in E. congruence.
Qed.

Lemma pretty_N_go_no_dot x s :
  contains_dot (pretty_N_go x s) = contains_dot s.
Proof.
  revert s. induction (N.lt_wf_0 x) as [x _ IH]; intros s.
  assert (x = 0 ∨ 0 < x)%N as [->|?] by lia; [by rewrite pretty_N_go_0|].
  rewrite pretty_N_go_step by done. rewrite IH by (by apply N.div_lt).
  cbn. unfold pretty_N_char. by repeat case_match.
Qed.

Lemma pretty_nat_no_dot (n : nat) : contains_dot (pretty n) = false.
Proof.
  unfold pretty, pretty_nat, pretty, pretty_N.
  case_decide; [done|]. apply pretty_N_go_no_dot.
Qed.

Lemma padded_no_dot width n : contains_dot (padded width n) = false.
Proof.
  unfold padded. rewrite contains_dot_app, pretty_nat_no_dot, orb_false_r.
  induction (width - _)%nat as [|k IH]; [done|]. cbn. exact IH.
Qed.

Lemma strftime_date_no_dot d : contains_dot (strftime_date d) = false.
Proof.
  unfold strftime_date. by rewrite !contains_dot_app, !padded_no_dot.
Qed.

(** X4: the date prefix never takes part in the search for the
    extension: the candidates for a date-prefixed name are the date
    prefix followed by the candidates for the template's own name, so the
    counter always goes before the template's extension. *)
Theorem dated_candidates d template_name k :
  candidate (strftime_date d +:+ "-" +:+ template_name) k =
    strftime_date d +:+ "-" +:+ candidate template_name k.
Proof.
  destruct k as [|k]; [done|]. cbn [candidate]. unfold renamed.
  rewrite <-(app_assoc_s (strftime_date d) "-" template_name).
  rewrite rsplit_dot_app
    by (rewrite contains_dot_app, strftime_date_no_dot; reflexivity).
  destruct (rsplit_dot template_name) as [[name_part ext_part]|].
  - by rewrite !app_assoc_s.
  - by rewrite !app_assoc_s.
Qed.

(** ** The header *)

(** X19: the header goes with the text after the last dot of the
    template's name and with the date prefix, and with nothing else.  A
    template [base.ext], [ext] without a dot, is written as the header
    followed by its text when [.ext], lowercased, is a prose extension
    and the date prefix is asked for, and as its text alone otherwise; a
    template without a dot in its name is always written as its text
    alone.  The header is never empty, so the two cases differ. *)
Theorem header_exactly_for_prose_with_date `{!StrMethodsAscii SM} :
  (∀ s base ext add_date_prefix content,
     contains_dot ext = false →
     template_dir s !! (base +:+ "." +:+ ext) = Some (RegularFile (Some content)) →
     cwd_writable s = true →
     ∃ filename s',
       create_file_from_template (base +:+ "." +:+ ext) add_date_prefix s
         = (Ok filename, s') ∧
       cwd s' !! filename = Some (RegularFile (Some (
         if bool_decide (str_lower ("." +:+ ext) ∈ header_safe_extensions)
            && add_date_prefix
         then header (base +:+ "." +:+ ext) (clock s (S (ticks s))) +:+ content
         else content)))) ∧
  (∀ s template_name add_date_prefix content,
     contains_dot template_name = false →
     template_dir s !! template_name = Some (RegularFile (Some content)) →
     cwd_writable s = true →
     ∃ filename s',
       create_file_from_template template_name add_date_prefix s
         = (Ok filename, s') ∧
       cwd s' !! filename = Some (RegularFile (Some content))) ∧
  (∀ template_name d content, header template_name d +:+ content ≠ content).
Proof.
  split; [|split; [|apply header_nonempty]].
  - intros s base ext add_date_prefix content Hext Hread Hw.
    destruct (create_file_from_template_ok s _ add_date_prefix content Hread Hw)
      as (k & s' & Hrun & _ & _ & Hcwd & _).
    eexists _, s'. split; [exact Hrun|].
    rewrite Hcwd, lookup_insert_eq. unfold final_text, split_name.
    by rewrite (rsplit_dot_join base ext Hext).
  - intros s template_name add_date_prefix content Hdot Hread Hw.
    destruct (create_file_from_template_ok s _ add_date_prefix content Hread Hw)
      as (k & s' & Hrun & _ & _ & Hcwd & _).
    eexists _, s'. split; [exact Hrun|].
    rewrite Hcwd, lookup_insert_eq. unfold final_text, split_name.
    rewrite (proj2 (rsplit_dot_None template_name) Hdot). cbn [snd].
    rewrite (lower_on_ascii EmptyString) by done.
    by rewrite bool_decide_eq_false_2 by (by vm_compute).
Qed.

(** ** One iteration of the loop *)

Lemma iteration_text s line rest :
  stdin s = Text line :: rest →
  iteration s = dispatch s line (set_stdin rest (at_prompt s)).
Proof.
  intros Hin. unfold iteration, draw_ui, dispatch, at_prompt, prompts.
  repeat step. cbn [use_termios set_stdout]. destruct (use_termios s).
  - unfold get_key_termios. step. unfold read_event at 1.
    cbn [stdin set_stdout]. by rewrite Hin.
  - unfold get_command_fallback. repeat step. cbn [templates set_stdout].
    case_bool_decide; unfold input at 1; repeat step; unfold read_event at 1;
      cbn [stdin set_stdout]; rewrite Hin; cbv beta iota; repeat step;
      unfold set_stdin, set_stdout; cbn; by rewrite <-!app_assoc.
Qed.

Lemma iteration_interrupt s rest :
  stdin s = Interrupt :: rest →
  iteration s = (Raise KeyboardInterrupt, set_stdin rest (at_prompt s)).
Proof.
  intros Hin. unfold iteration, draw_ui, at_prompt, prompts.
  repeat step. cbn [use_termios set_stdout]. destruct (use_termios s).
  - unfold get_key_termios. step. unfold read_event at 1.
    cbn [stdin set_stdout]. by rewrite Hin.
  - unfold get_command_fallback. repeat step. cbn [templates set_stdout].
    case_bool_decide; unfold input at 1; repeat step; unfold read_event at 1;
      cbn [stdin set_stdout]; rewrite Hin; cbv beta iota;
      unfold set_stdin, set_stdout; cbn; by rewrite <-!app_assoc.
Qed.

(** The iteration that finds no event: it waits, or it meets the end
    of the input.  There [input()] raises [EOFError]; in raw mode
    [tcgetattr] raises [termios.error] when there is no terminal, and
    otherwise the empty key is read, which no branch handles. *)
Lemma iteration_at_end s :
  stdin s = [] →
  iteration s =
    (match stdin_end s with
     | Waiting => Blocked
     | Closed => if use_termios s then Ok true else Raise EOFError
     | NoTerminal => Raise (if use_termios s then TermiosError else EOFError)
     end, at_prompt s).
Proof.
  intros Hin. unfold iteration, draw_ui, at_prompt, prompts.
  repeat step. cbn [use_termios set_stdout]. destruct (use_termios s).
  - unfold get_key_termios. step. unfold read_event at 1.
    cbn [stdin stdin_end set_stdout]. rewrite Hin.
    by destruct (stdin_end s).
  - unfold get_command_fallback. repeat step. cbn [templates set_stdout].
    case_bool_decide; unfold input at 1; repeat step; unfold read_event at 1;
      cbn [stdin stdin_end set_stdout]; rewrite Hin;
      destruct (stdin_end s); cbn [input_at_end]; cbv beta iota;
      unfold set_stdin, set_stdout; cbn; by rewrite <-!app_assoc.
Qed.

(** ** How the handlers end *)

Lemma getitem_cases l i s :
  (∃ x, getitem l i s = (Ok x, s)) ∨
  (getitem l i s = (Raise IndexError, s) ∧ ¬ 0 ≤ i < Z.of_nat (length l)).
Proof.
  unfold getitem.
  destruct (Z.ltb_spec i 0) as [Hneg|Hpos].
  - destruct (_ && _) eqn:E; [|right; split; [done|lia]].
    destruct (l !! _) as [x|]; [left; by exists x|right; split; [done|lia]].
  - destruct (Z.leb_spec 0 i); [|lia].
    destruct (Z.ltb_spec i (Z.of_nat (length l))); cbn [andb];
      [|right; split; [done|lia]].
    destruct (lookup_lt_is_Some_2 l (Z.to_nat i)) as [x ->]; [lia|].
    left. by exists x.
Qed.

Lemma instantiate_ends add_date_prefix s :
  templates s ≠ [] → ends s (instantiate add_date_prefix s).
Proof.
  intros Hne. unfold instantiate. repeat step.
  destruct (getitem_cases (templates s) (selected_index s) s)
    as [[template ->]|[-> Hout]].
  2: { apply ends_raise; [done|]. intros _ Hin. by apply Hout, Hin. }
  cbv beta iota. step.
  destruct (readable_or_fails s template) as [Hfail|(content & Hread & Hw)].
  - destruct (create_file_from_template_fails s template add_date_prefix Hfail)
      as (s' & -> & [Hcwd|[-> Hnew]] & _); [|by apply ends_partial].
    apply ends_raise; [done|]. unfold failure. by repeat case_match.
  - destruct (create_file_from_template_ok s template add_date_prefix content
                Hread Hw) as (k & s' & -> & Hfree & _ & Hcwd & Hsame).
    repeat step. eapply ends_created. split; [exact Hfree|].
    split; [by eexists|]. cbn [stdout set_stdout]. by rewrite last_snoc.
Qed.

(** Takes the catalog's having entries from the test that guards a
    branch. *)
Ltac guarded tac :=
  match goal with
  | |- context [?b && nonempty (templates ?s)] =>
      let E := fresh "E" in
      destruct (b && nonempty (templates s)) eqn:E;
      [apply andb_true_iff in E as [_ E]; apply nonempty_spec in E; tac|]
  end.

Lemma handle_key_ends key s : ends s (handle_key key s).
Proof.
  unfold handle_key. repeat step.
  case_bool_decide; [by apply ends_leave|].
  guarded ltac:(repeat step; by apply ends_continue).
  guarded ltac:(repeat step; by apply ends_continue).
  guarded ltac:(by apply instantiate_ends).
  guarded ltac:(by apply instantiate_ends).
  repeat step. by apply ends_continue.
Qed.

Lemma acknowledge_ends o s :
  (∀ filename, o ≠ Created filename) →
  ends s ((print o;; input;; mret true) s).
Proof.
  intros Ho. unfold input. repeat step. unfold read_event.
  cbn [stdin set_stdout].
  destruct (stdin s) as [|[line|] rest] eqn:Hin; repeat step.
  - cbn [stdin_end set_stdout].
    destruct (stdin_end s); cbn; by (apply ends_blocked || apply ends_raise).
  - apply ends_continue; [done|]. cbn. rewrite Hin. cbn. lia.
  - by apply ends_raise.
Qed.

Lemma handle_fallback_command_ends command s :
  ends s (handle_fallback_command command s).
Proof.
  unfold handle_fallback_command.
  set (c := if bool_decide (command = EmptyString) then _ else _). clearbody c.
  repeat step.
  destruct (bool_decide (c ∈ ["q"; "quit"; "exit"])); [by apply ends_leave|].
  guarded ltac:(repeat step; by apply ends_continue).
  guarded ltac:(repeat step; by apply ends_continue).
  guarded ltac:(idtac).
  { destruct (str_int c) as [n|]; [|by apply ends_raise].
    destruct ((0 <=? n - 1) && _); repeat step; by apply ends_continue. }
  guarded ltac:(by apply instantiate_ends).
  guarded ltac:(by apply instantiate_ends).
  destruct (bool_decide (c ∈ ["help"; "h"; "?"])); by apply acknowledge_ends.
Qed.

(** An iteration ends as a handler does, and when it asks to continue
    it has taken at least one event from the input, unless it has read
    the empty key. *)
Lemma iteration_ends s :
  ends s (iteration s) ∧
  ∀ s', iteration s = (Ok true, s') →
        (length (stdin s') < length (stdin s))%nat ∨ reads_nothing s.
Proof.
  destruct (stdin s) as [|[line|] rest] eqn:Hin.
  - rewrite iteration_at_end by done. unfold reads_nothing.
    destruct (stdin_end s), (use_termios s);
      (split; [first [by apply ends_blocked|by apply ends_raise
                     |apply ends_continue; [done|cbn; lia]]
              |intros; try done; by right]).
  - rewrite (iteration_text s line rest) by done.
    set (s1 := set_stdin rest (at_prompt s)).
    assert (ends s1 (dispatch s line s1)) as He.
    { unfold dispatch. destruct (use_termios s);
        [apply handle_key_ends|apply handle_fallback_command_ends]. }
    destruct He as [s' Hc Hl|s' Hc|f s' (Hf & Ht & Hl)|e s' Hc He|s' Hnew|s' Hc].
    + subst s1. cbn in Hl.
      split; [apply ends_continue; [done|rewrite Hin; cbn; lia]|].
      intros ? [= <-]. left. cbn. lia.
    + split; [by apply ends_leave|done].
    + split; [by eapply ends_created|done].
    + split; [|done]. apply ends_raise; [done|]. intros -> Hr. by apply He.
    + split; [by apply ends_partial|done].
    + split; [by apply ends_blocked|done].
  - rewrite (iteration_interrupt s rest) by done.
    split; [by apply ends_raise|done].
Qed.

(** ** Whole sessions *)


Lemma main_loop_no_index_error fuel s :
  in_range s → (main_loop fuel s).1 ≠ Raise IndexError.
Proof.
  revert s. induction fuel as [|fuel IH]; intros s Hin; [done|].
  cbn [main_loop]. rewrite bind_unfold.
  destruct (iteration_steady s) as (_ & _ & Hnext & _).
  destruct (iteration_ends s) as [He _].
  destruct He as [s' Hc Hl|s' Hc|f s' Hf|e s' Hc He|s' Hnew|s' Hc];
    cbv beta iota; try done.
  - apply IH. by apply Hnext.
  - cbn. intros [= ->]. by apply He.
Qed.

Lemma main_loop_budget fuel s :
  (length (stdin s) < fuel)%nat →
  (use_termios s = true → stdin_end s ≠ Closed) →
  (main_loop fuel s).1 ≠ OutOfFuel.
Proof.
  revert s. induction fuel as [|fuel IH]; intros s Hfuel Hend; [lia|].
  cbn [main_loop]. rewrite bind_unfold.
  destruct (iteration_steady s) as (_ & Hmode & _ & Hsame).
  destruct (iteration_ends s) as [He Hless].
  destruct He as [s' Hc Hl|s' Hc|f s' Hf|e s' Hc He|s' Hnew|s' Hc];
    cbv beta iota; try done.
  cbn [snd] in Hmode, Hsame.
  destruct (Hless s' eq_refl) as [Hlt|(Hraw & _ & Hclosed)];
    [|by destruct (Hend Hraw)].
  apply IH; [lia|]. by rewrite Hmode, Hsame.
Qed.

Lemma init_state termios_available s :
  init termios_available s = (Ok tt, after (init termios_available) s) ∧
  cwd (after (init termios_available) s) = cwd s ∧
  stdin (after (init termios_available) s) = stdin s ∧
  stdout (after (init termios_available) s) = stdout s ∧
  use_termios (after (init termios_available) s) = termios_available ∧
  stdin_end (after (init termios_available) s) = stdin_end s.
Proof. done. Qed.


(** X6: no session ends with an [IndexError]: the selection with
    which [self.templates] is indexed is a valid index of the catalog
    whenever a key or command instantiates, whatever has been typed
    before. *)
Theorem session_never_raises_index_error termios_available fuel s e :
  (main termios_available fuel s).1 = Raise e → e ≠ IndexError.
Proof.
  unfold main. rewrite bind_unfold.
  destruct (init_state termios_available s) as (-> & _). cbv beta iota.
  assert (in_range (after (init termios_available) s)) as Hin.
  { unfold in_range. destruct (init_templates termios_available s) as (_ & -> & _).
    destruct (templates _); [done|]. intros _. cbn [length]. lia. }
  pose proof (main_loop_no_index_error fuel _ Hin) as Hno.
  unfold run, finally, except_pass.
  destruct (main_loop fuel _) as [[[]|e'| |] s1]; cbn; try done.
  destruct (decide (e' = KeyboardInterrupt)); cbn; [done|].
  intros [= <-] ->. done.
Qed.

(** X7: an iteration of the loop that continues has taken at least
    one event from the input, the one exception being the empty key
    that the raw mode reads at the end of the input.  So unless the
    session is in raw mode on an input that ends, a budget above the
    number of pending events is never used up: the session returns,
    raises or waits for more input. *)
Theorem continuing_iteration_takes_input :
  (∀ s s', iteration s = (Ok true, s') →
     (length (stdin s') < length (stdin s))%nat ∨ reads_nothing s) ∧
  (∀ termios_available fuel s,
     (length (stdin s) < fuel)%nat →
     (termios_available = true → stdin_end s ≠ Closed) →
     (main termios_available fuel s).1 ≠ OutOfFuel).
Proof.
  split; [intros s; apply iteration_ends|].
  intros termios_available fuel s Hfuel Hend. unfold main. rewrite bind_unfold.
  destruct (init_state termios_available s) as (-> & _ & Hstdin & _ & Hmode & Hsame).
  cbv beta iota. unfold run, finally, except_pass.
  pose proof (main_loop_budget fuel (after (init termios_available) s)) as Hb.
  rewrite Hstdin, Hmode, Hsame in Hb. specialize (Hb Hfuel Hend).
  destruct (main_loop fuel _) as [[[]|e'| |] s1]; cbn; try done.
  by destruct (decide (e' = KeyboardInterrupt)).
Qed.


(** How [run] ends when its first iteration does not continue. *)
Lemma run_at_once fuel s r s1 :
  iteration s = (r, s1) → r ≠ Ok true → r ≠ OutOfFuel → r ≠ Blocked →
  run (S fuel) s =
    (match r with
     | Raise e => if decide (e = KeyboardInterrupt) then Ok tt else Raise e
     | _ => Ok tt
     end, set_stdout (stdout s1 ++ [Reset]) s1).
Proof.
  intros Hit ???. unfold run, finally, except_pass. cbn [main_loop].
  rewrite bind_unfold, Hit. destruct r as [[|]|e| |]; try done.
  cbn. by destruct (decide (e = KeyboardInterrupt)).
Qed.

(** X8: an interrupt while the session waits for its first key or
    command ends it normally: [run] returns, nothing is written, the
    selection stays, and the frame, the prompt of the fallback mode and
    the reset are all that is printed. *)
Theorem interrupt_ends_session fuel s rest :
  stdin s = Interrupt :: rest →
  ∃ s', run (S fuel) s = (Ok tt, s') ∧
        cwd s' = cwd s ∧ selected_index s' = selected_index s ∧
        stdin s' = rest ∧
        stdout s' =
          stdout s ++
          Frame (templates s) (selected_index s) (use_termios s)
          :: prompts s ++ [Reset].
Proof.
  intros Hin. eexists. split.
  - rewrite (run_at_once fuel s _ _ (iteration_interrupt s rest Hin)) by done.
    reflexivity.
  - cbn. by rewrite <-app_assoc.
Qed.

(** X9: [q] in raw mode, and [q], [quit] or [exit] in fallback mode in
    any case and with blanks around it as far as [strip] and [lower]
    remove them, end the session normally, whatever the catalog holds:
    nothing is written, and the input after the command is not read. *)
Theorem quit_ends_session fuel s line rest :
  stdin s = Text line :: rest →
  (if use_termios s then line = "q"
   else str_lower (str_strip line) ∈ ["q"; "quit"; "exit"]) →
  ∃ s', run (S fuel) s = (Ok tt, s') ∧
        cwd s' = cwd s ∧ selected_index s' = selected_index s ∧
        stdin s' = rest ∧
        stdout s' =
          stdout s ++
          Frame (templates s) (selected_index s) (use_termios s)
          :: prompts s ++ [Reset].
Proof.
  intros Hin Hq.
  assert (iteration s = (Ok false, set_stdin rest (at_prompt s))) as Hit.
  { rewrite (iteration_text s line rest Hin). unfold dispatch.
    destruct (use_termios s).
    - subst line. unfold handle_key. repeat step. by literals.
    - unfold handle_fallback_command.
      set (c := str_lower (str_strip line)) in *. clearbody c.
      apply list_elem_of_In in Hq. cbn in Hq.
      destruct Hq as [<-|[<-|[<-|[]]]]; repeat step; by literals. }
  eexists. split.
  - rewrite (run_at_once fuel s _ _ Hit) by done. reflexivity.
  - cbn. by rewrite <-app_assoc.
Qed.

(** X10: in fallback mode with a catalog that has entries, a command
    for which [isdigit] holds and which [int] rejects ends the session
    with the [ValueError] of [int]: nothing is written and nothing but
    the frame, the prompt and the reset is printed. *)
Theorem rejected_number_raises `{!StrMethodsAscii SM} fuel s line rest :
  use_termios s = false →
  templates s ≠ [] →
  stdin s = Text line :: rest →
  str_isdigit (str_lower (str_strip line)) = true →
  str_int (str_lower (str_strip line)) = None →
  ∃ s', run (S fuel) s = (Raise ValueError, s') ∧
        cwd s' = cwd s ∧ selected_index s' = selected_index s ∧
        stdout s' =
          stdout s ++
          [Frame (templates s) (selected_index s) false; CommandsLine; Prompt; Reset].
Proof.
  intros Hmode Hne Hin Hd Hint.
  assert (iteration s = (Raise ValueError, set_stdin rest (at_prompt s))) as Hit.
  { rewrite (iteration_text s line rest Hin). unfold dispatch. rewrite Hmode.
    set (c := str_lower (str_strip line)) in *. clearbody c.
    destruct (digits_not_a_word c Hd) as (H0 & Hq & Hu & Hdn).
    unfold handle_fallback_command.
    rewrite (bool_decide_eq_false_2 (c = EmptyString)) by done.
    repeat step.
    rewrite (bool_decide_eq_false_2 (c ∈ ["q"; "quit"; "exit"])) by done.
    rewrite (bool_decide_eq_false_2 (c ∈ ["up"; "u"])) by done.
    rewrite (bool_decide_eq_false_2 (c ∈ ["down"; "d"])) by done.
    cbn [andb templates set_stdin at_prompt set_stdout].
    by rewrite Hd, (nonempty_true _ Hne), Hint. }
  eexists. split.
  - rewrite (run_at_once fuel s _ _ Hit) by done. reflexivity.
  - cbn. unfold prompts. rewrite Hmode.
    rewrite (bool_decide_eq_false_2 (templates s = [])) by done.
    by rewrite <-app_assoc.
Qed.

(** X11: when the selected template can be read and the working
    directory written, the key or command that instantiates creates the
    file under the first free candidate name, prints its confirmation and
    ends the session normally; the input after it is not read.  Enter,
    [enter], [e] and the empty line ask for the date prefix, [c] and
    [copy] do not. *)
Theorem instantiation_ends_session `{!StrMethodsAscii SM}
    fuel s template_name content line rest :
  0 ≤ selected_index s →
  templates s !! Z.to_nat (selected_index s) = Some template_name →
  template_dir s !! template_name = Some (RegularFile (Some content)) →
  cwd_writable s = true →
  stdin s = Text line :: rest →
  (if use_termios s then line ∈ [cr; "c"]
   else str_lower (str_strip line) ∈ ["enter"; "e"; EmptyString; "copy"; "c"]) →
  let add_date_prefix :=
    if use_termios s then bool_decide (line = cr)
    else bool_decide (str_lower (str_strip line) ∈ ["enter"; "e"; EmptyString]) in
  let original := first_name template_name add_date_prefix (clock s (ticks s)) in
  let text := final_text template_name add_date_prefix (clock s (S (ticks s))) content in
  ∃ k s',
    run (S fuel) s = (Ok tt, s') ∧
    cwd s !! candidate original k = None ∧
    (∀ j, (j < k)%nat → is_Some (cwd s !! candidate original j)) ∧
    cwd s' = <[candidate original k := RegularFile (Some text)]> (cwd s) ∧
    stdin s' = rest ∧
    stdout s' =
      stdout s ++
      Frame (templates s) (selected_index s) (use_termios s)
      :: prompts s ++ [Created (candidate original k); Reset].
Proof.
  intros H0 Hsel Hread Hw Hin Hline add_date_prefix original text.
  assert (templates s ≠ []) as Hne by (intros E; by rewrite E in Hsel).
  set (s1 := set_stdin rest (at_prompt s)).
  assert (iteration s = instantiate add_date_prefix s1) as Hit.
  { rewrite (iteration_text s line rest Hin). unfold dispatch.
    subst add_date_prefix. destruct (use_termios s).
    - by apply handle_key_instantiate.
    - by apply handle_fallback_instantiate. }
  destruct (create_file_from_template_ok s1 template_name add_date_prefix content
              Hread Hw) as (k & s2 & Hrun & Hfree & Hleast & Hcwd & Hsame).
  change (clock s1 (ticks s1)) with (clock s (ticks s)) in *.
  change (clock s1 (S (ticks s1))) with (clock s (S (ticks s))) in *.
  change (cwd s1) with (cwd s) in *.
  fold original in Hrun, Hfree, Hleast, Hcwd. fold text in Hcwd.
  assert (iteration s =
    (Ok false, set_stdout (stdout s2 ++ [Created (candidate original k)]) s2))
    as Hdone.
  { rewrite Hit. unfold instantiate. repeat step.
    rewrite (getitem_selected s1 template_name) by done. repeat step.
    rewrite Hrun. by repeat step. }
  exists k. eexists. split; [|split; [exact Hfree|split; [exact Hleast|]]].
  - rewrite (run_at_once fuel s _ _ Hdone) by done. reflexivity.
  - destruct Hsame as (_ & _ & _ & _ & _ & _ & Hstdin & Hstdout & _).
    cbn. rewrite Hcwd, Hstdin, Hstdout. split; [done|]. split; [done|].
    cbn. by rewrite <-!app_assoc.
Qed.

(** ** The catalog and the order of the directory listing *)

(** X12: the catalog does not depend on the order in which the file
    system lists the template directory: whatever order [iterdir] yields
    the entries in, [load_templates] arrives at the same list. *)
Theorem catalog_independent_of_listing_order termios_available s listing :
  listing ≡ₚ iterdir (template_dir s) →
  templates (after (init termios_available) s) =
    sorted (filter (λ f, is_file f.2 && is_supported_file f.1 = true) listing).*1.
Proof.
  intros Hperm. destruct (init_templates termios_available s) as (-> & _ & _).
  unfold sorted. apply (StronglySorted_unique String.le).
  - apply StronglySorted_merge_sort; apply _.
  - apply StronglySorted_merge_sort; apply _.
  - rewrite !merge_sort_Permutation. by rewrite Hperm.
Qed.

(** ** The content area of [draw_ui] *)

Lemma for_each_pure {A B} (l : list A) (body : A → M B) (f : A → B) s :
  (∀ x, x ∈ l → body x s = (Ok (f x), s)) →
  for_each l body s = (Ok (f <$> l), s).
Proof.
  induction l as [|x l IH]; intros Hbody; [done|].
  cbn [for_each]. rewrite bind_unfold, (Hbody x) by apply list_elem_of_here.
  rewrite bind_unfold, IH; [done|].
  intros y Hy. apply Hbody. by apply list_elem_of_further.
Qed.

Lemma getitem_lookup l i x s :
  0 ≤ i → l !! Z.to_nat i = Some x → getitem l i s = (Ok x, s).
Proof.
  intros Hi Hx. unfold getitem.
  pose proof (lookup_lt_Some _ _ _ Hx) as Hlt.
  destruct (i <? 0) eqn:E; [lia|].
  destruct ((0 <=? i) && (i <? Z.of_nat (length l))) eqn:E'.
  - by rewrite Hx.
  - apply andb_false_iff in E' as [?|?]; lia.
Qed.

Lemma start_idx_bounds s :
  0 ≤ start_idx s ∧
  (Z.of_nat (length (templates s)) ≤ content_height → start_idx s = 0) ∧
  (content_height ≤ Z.of_nat (length (templates s)) →
     start_idx s + content_height ≤ Z.of_nat (length (templates s))).
Proof. unfold start_idx, content_height. lia. Qed.

Lemma seqZ_content : seqZ 0 content_height = [0; 1; 2; 3; 4; 5; 6; 7; 8; 9].
Proof. reflexivity. Qed.

(** With entries in the catalog the content area never fails: its rows
    are those of [row_at] for the positions 0 to 9. *)
Lemma content_area_rows s :
  templates s ≠ [] →
  content_area s = (Ok (row_at s <$> seqZ 0 content_height), s).
Proof.
  intros Hne. unfold content_area. rewrite bind_unfold, get_spec.
  rewrite (bool_decide_eq_false_2 _ Hne).
  apply for_each_pure. intros i Hi.
  assert (0 ≤ i) as Hi0.
  { apply elem_of_seqZ in Hi. lia. }
  destruct (start_idx_bounds s) as (Hstart & _ & _). unfold row_at.
  destruct (start_idx s + i <? Z.of_nat (length (templates s))) eqn:E.
  - destruct (lookup_lt_is_Some_2 (templates s) (Z.to_nat (start_idx s + i)))
      as [template Ht]; [lia|].
    rewrite bind_unfold, (getitem_lookup _ _ template) by (done || lia).
    by rewrite Ht.
  - rewrite lookup_ge_None_2 by lia. done.
Qed.

Lemma content_area_empty s :
  templates s = [] →
  content_area s =
    (Ok ((Notice <$> empty_lines) ++ [EmptyRow; EmptyRow]), s).
Proof.
  intros Hnil. unfold content_area. rewrite bind_unfold, get_spec.
  rewrite (bool_decide_eq_true_2 _ Hnil). reflexivity.
Qed.

(** X13: whenever the selection is an index of the catalog, the
    selected template is on the screen: the content area has a row for
    it, with its number and marked as selected, and no other row is
    marked. *)
Theorem selected_row_is_drawn s template_name :
  0 ≤ selected_index s →
  templates s !! Z.to_nat (selected_index s) = Some template_name →
  ∃ rows,
    content_area s = (Ok rows, s) ∧
    0 ≤ selected_index s - start_idx s < content_height ∧
    rows !! Z.to_nat (selected_index s - start_idx s) =
      Some (Item (selected_index s + 1) template_name true (use_termios s)) ∧
    ∀ j n t f, rows !! j = Some (Item n t true f) →
               j = Z.to_nat (selected_index s - start_idx s).
Proof.
  intros Hsel Ht. pose proof (lookup_lt_Some _ _ _ Ht) as Hlt.
  assert (templates s ≠ []) as Hne by (intros E; by rewrite E in Ht).
  exists (row_at s <$> seqZ 0 content_height).
  split; [by apply content_area_rows|].
  assert (0 ≤ selected_index s - start_idx s < content_height) as Hwin
    by (unfold start_idx, content_height; lia).
  split; [done|]. split.
  - rewrite list_lookup_fmap, lookup_seqZ_lt by lia. cbn [fmap option_fmap option_map].
    unfold row_at.
    replace (start_idx s + (0 + Z.of_nat (Z.to_nat (selected_index s - start_idx s))))
      with (selected_index s) by lia.
    rewrite Ht. by rewrite bool_decide_eq_true_2.
  - intros j n t f Hj. rewrite list_lookup_fmap in Hj.
    destruct (seqZ 0 content_height !! j) as [i|] eqn:Hi; [|done].
    apply lookup_seqZ in Hi as [-> ?]. cbn in Hj. unfold row_at in Hj.
    injection Hj as Hj.
    destruct (templates s !! Z.to_nat (start_idx s + (0 + Z.of_nat j)));
      [|done].
    injection Hj as _ _ Hb _.
    apply bool_decide_eq_true in Hb. lia.
Qed.

(** X14: the content area never fails, whatever the selection is,
    and is always as full as the catalog allows: of its ten rows, as
    many show a template as the catalog has entries, up to ten; the
    templates shown are consecutive entries of the catalog from
    [start_idx] on, numbered from one. *)
Theorem content_area_is_full s :
  ∃ rows,
    content_area s = (Ok rows, s) ∧
    length rows = 10%nat ∧
    length (filter (λ r, is_item r = true) rows) =
      (length (templates s) `min` 10)%nat ∧
    ∀ j n t b f, rows !! j = Some (Item n t b f) →
      n = start_idx s + Z.of_nat j + 1 ∧
      templates s !! Z.to_nat (n - 1) = Some t.
Proof.
  destruct (decide (templates s = [])) as [Hnil|Hne].
  { eexists. split; [by apply content_area_empty|]. rewrite Hnil.
    split; [done|]. split; [done|].
    intros j n t b f Hj.
    do 10 (destruct j as [|j]; [discriminate Hj|]). done. }
  exists (row_at s <$> seqZ 0 content_height).
  split; [by apply content_area_rows|].
  split; [by rewrite length_fmap, length_seqZ|].
  destruct (start_idx_bounds s) as (Hstart & Hshort & Hlong).
  unfold content_height in Hshort, Hlong. split.
  - destruct (decide (10 ≤ Z.of_nat (length (templates s)))) as [Hn|Hn].
    + rewrite Nat.min_r by lia.
      specialize (Hlong Hn). rewrite seqZ_content.
      assert (∀ i, 0 ≤ i < 10 → is_item (row_at s i) = true) as Hitem.
      { intros i Hi. unfold row_at.
        destruct (lookup_lt_is_Some_2 (templates s) (Z.to_nat (start_idx s + i)))
          as [t ->]; [lia|done]. }
      cbn [fmap list_fmap].
      rewrite !filter_cons_True by (apply Hitem; lia). done.
    + rewrite Nat.min_l by lia.
      assert (∀ i, 0 ≤ i →
        is_item (row_at s i) = bool_decide (i < Z.of_nat (length (templates s))))
        as Hitem.
      { intros i Hi. unfold row_at. rewrite Hshort by lia.
        destruct (decide (i < Z.of_nat (length (templates s)))) as [Hlt|Hge].
        - rewrite (bool_decide_eq_true_2 _ Hlt).
          destruct (lookup_lt_is_Some_2 (templates s) (Z.to_nat (0 + i)))
            as [t ->]; [lia|done].
        - rewrite (bool_decide_eq_false_2 _ Hge).
          by rewrite lookup_ge_None_2 by lia. }
      rewrite seqZ_content. cbn [fmap list_fmap].
      destruct (templates s) as [|t0 l]; [done|]. clear Hne.
      remember (length (t0 :: l)) as n eqn:Hlen. clear Hlen.
      assert (n < 10)%nat as Hlt by lia.
      assert (∀ i, 0 ≤ i →
        is_item (row_at s i) = true ↔ i < Z.of_nat n) as Hiff.
      { intros i Hi. rewrite Hitem by done. apply bool_decide_eq_true. }
      do 10 (destruct n as [|n]; [
        repeat (first [rewrite filter_cons_True by (apply Hiff; lia)
                      |rewrite filter_cons_False by (rewrite Hiff by lia; lia)]);
        done|]).
      lia.
  - intros j n t b f Hj. rewrite list_lookup_fmap in Hj.
    destruct (seqZ 0 content_height !! j) as [i|] eqn:Hi; [|done].
    apply lookup_seqZ in Hi as [-> ?]. cbn in Hj. unfold row_at in Hj.
    injection Hj as Hj.
    destruct (templates s !! Z.to_nat (start_idx s + (0 + Z.of_nat j)))
      as [t'|] eqn:Ht; [|done].
    injection Hj as <- <- _ _. split; [lia|].
    rewrite <-Ht. f_equal. lia.
Qed.

(** ** Keys and commands that change nothing *)

(** X15: in raw mode a key that is not bound changes nothing: the
    iteration prints the frame, takes the key and asks to continue, with
    the catalog, the selection and the working directory as they were.
    With an empty catalog every key but [q] is such a key; with entries
    every key but [q], the two arrows, Enter and [c], so the digits and
    the interrupt character too. *)
Theorem unbound_key_redraws_only s key rest :
  use_termios s = true →
  stdin s = Text key :: rest →
  key ≠ "q" →
  templates s = [] ∨ (key ∉ [esc +:+ "[A"; esc +:+ "[B"; cr; "c"]) →
  iteration s =
    (Ok true,
     set_stdin rest
       (set_stdout (stdout s ++ [Frame (templates s) (selected_index s) true]) s)).
Proof.
  intros Hraw Hin Hq Hkey. rewrite (iteration_text s key rest Hin).
  unfold dispatch, at_prompt, prompts. rewrite Hraw.
  unfold handle_key. repeat step. cbn [templates set_stdin set_stdout].
  rewrite (bool_decide_eq_false_2 _ Hq).
  destruct Hkey as [Hnil|Hkey].
  - rewrite Hnil. change (nonempty []) with false.
    by rewrite !andb_false_r.
  - rewrite !bool_decide_eq_false_2; [done|..];
      intros ->; apply Hkey; repeat constructor.
Qed.

(** X16: in fallback mode the line typed after [help], [h] or [?] is
    taken from the input and dropped: the help text and a second prompt
    are printed, the line is read and not interpreted as a command,
    whatever it says, and the loop continues with the selection and the
    working directory as they were. *)
Theorem help_discards_next_line `{!StrMethodsAscii SM} s line next rest :
  use_termios s = false →
  stdin s = Text line :: Text next :: rest →
  str_lower (str_strip line) ∈ ["help"; "h"; "?"] →
  ∃ s', iteration s = (Ok true, s') ∧
        templates s' = templates s ∧ selected_index s' = selected_index s ∧
        cwd s' = cwd s ∧ stdin s' = rest ∧
        stdout s' =
          stdout s ++
          Frame (templates s) (selected_index s) false
          :: prompts s ++ [HelpText; Prompt].
Proof.
  intros Hfallback Hin Hc. rewrite (iteration_text s line _ Hin).
  unfold dispatch. rewrite Hfallback.
  set (c := str_lower (str_strip line)) in *. clearbody c.
  unfold handle_fallback_command.
  apply list_elem_of_In in Hc. cbn in Hc.
  destruct Hc as [<-|[<-|[<-|[]]]]; repeat step; literals;
    rewrite isdigit_on_ascii by reflexivity;
    match goal with
    | |- context [ascii_isdigit ?w] =>
        let b := eval vm_compute in (ascii_isdigit w) in
        change (ascii_isdigit w) with b
    end; cbn [andb]; repeat step; unfold input; repeat step;
    unfold read_event; cbn [stdin set_stdin set_stdout at_prompt];
    repeat step; (eexists; split; [reflexivity|]);
    unfold at_prompt; rewrite Hfallback; cbn; by rewrite <-!app_assoc.
Qed.

(** ** Moving there and back *)

(** X17: with a valid selection, moving down and then up comes back
    to the selected template unless the selection was the last one, from
    which the pair of moves goes one up; moving up and then down comes
    back unless the selection was the first one, from which the pair goes
    one down.  In a catalog of one entry both pairs stay. *)
Theorem down_up_round_trip d u s :
  d ∈ move_down → u ∈ move_up →
  templates s ≠ [] →
  0 ≤ selected_index s < Z.of_nat (length (templates s)) →
  let last := Z.of_nat (length (templates s)) - 1 in
  selected_index (after u (after d s)) =
    (if bool_decide (selected_index s = last) then Z.max 0 (last - 1)
     else selected_index s) ∧
  selected_index (after d (after u s)) =
    (if bool_decide (selected_index s = 0) then Z.min last 1
     else selected_index s).
Proof.
  intros Hd Hu Hne Hsel last. subst last. unfold after.
  rewrite (move_down_spec d s Hd Hne), (move_up_spec u s Hu Hne). cbn [snd].
  rewrite (move_up_spec u _ Hu), (move_down_spec d _ Hd) by done.
  cbn [snd templates selected_index set_selected_index].
  split; case_bool_decide; lia.
Qed.

End Program.
(** * The statements at sample sessions *)

(** The ASCII implementation of the interface is one of those the
    statements speak about. *)
#[export] Instance ascii_methods_ascii : StrMethodsAscii ascii_methods.
Proof. split; intros s _; reflexivity. Qed.

Lemma collision_loop_terminates_sample :
  (∃ k, (k ≤ 2)%nat ∧
     cwd sample !! candidate "report.txt" k = None ∧
     ∀ fuel, (2 < fuel)%nat →
       resolve_conflicts fuel "report.txt" "report.txt" 1 sample
         = (Ok (candidate "report.txt" k), sample)) ∧
  (∀ j k, candidate "report.txt" j = candidate "report.txt" k → j = k).
Proof. exact (collision_loop_terminates sample "report.txt"). Defined.

Lemma collision_names_from_original_sample :
  (create_file_from_template "report.txt" false sample).1 = Ok "report-2.txt".
Proof.
  refine (proj2 (proj2 collision_names_from_original) sample "figures" _ _ _ _ _);
    vm_compute; eauto.
Defined.


Lemma text_mode_copy_changes_line_ends_script :
  ∃ filename s',
    create_file_from_template "script.sh" true dos_templates = (Ok filename, s') ∧
    cwd s' !! filename =
      Some (RegularFile (Some ("#!/bin/sh" +:+ nl +:+ "exit 0" +:+ nl))) ∧
    contains_cr (stored_bytes nl (universal_newlines dos_script)) = false ∧
    stored_bytes nl (universal_newlines dos_script) ≠ dos_script.
Proof.
  refine (text_mode_copy_changes_line_ends dos_templates "script" "sh" true
            dos_script eq_refl eq_refl eq_refl eq_refl eq_refl _).
  right. intros Hprose.
  assert (bool_decide (str_lower ("." +:+ "sh") ∈ header_safe_extensions)
          = false) as Hno by (vm_compute; reflexivity).
  apply bool_decide_eq_false in Hno. exact (Hno Hprose).
Defined.

Lemma failed_instantiation_propagates_broken :
  (∃ s',
     run 1 broken = (Raise OSError, s') ∧
     OSError ≠ KeyboardInterrupt ∧
     at_most_one_new_file broken s' ∧
     stdin s' = [] ∧
     stdout s' = [Frame ["notes.md"; "report.txt"; "script.sh"] 0 true; Reset]) ∧
  (∃ s',
     run 1 garbled = (Raise UnicodeDecodeError, s') ∧
     UnicodeDecodeError ≠ KeyboardInterrupt ∧
     at_most_one_new_file garbled s' ∧
     stdin s' = [] ∧
     stdout s' = [Frame ["logo.txt"; "notes.md"] 0 true; Reset]) ∧
  (∃ s',
     run 1 full = (Raise OSError, s') ∧
     OSError ≠ KeyboardInterrupt ∧
     at_most_one_new_file full s' ∧
     stdin s' = [] ∧
     stdout s' = [Frame ["notes.md"] 0 false; CommandsLine; Prompt; Reset]) ∧
  cwd (run 1 broken).2 = ∅ ∧
  cwd (run 1 garbled).2 = ∅ ∧
  cwd (run 1 full).2 = {["notes.md" := RegularFile (Some "bo")]}.
Proof.
  split; [|split; [|split; [|split; [|split]]]].
  - refine (failed_instantiation_propagates broken "notes.md" cr [] 0 _ _ _ _ _).
    + vm_compute. discriminate.
    + reflexivity.
    + left. intros content. vm_compute. discriminate.
    + reflexivity.
    + apply list_elem_of_here.
  - refine (failed_instantiation_propagates garbled "logo.txt" cr [] 0 _ _ _ _ _).
    + vm_compute. discriminate.
    + reflexivity.
    + left. intros content. vm_compute. discriminate.
    + reflexivity.
    + apply list_elem_of_here.
  - refine (failed_instantiation_propagates full "notes.md" "c" [] 0 _ _ _ _ _).
    + vm_compute. discriminate.
    + reflexivity.
    + right. reflexivity.
    + reflexivity.
    + vm_compute. do 4 apply list_elem_of_further. apply list_elem_of_here.
  - vm_compute. reflexivity.
  - vm_compute. reflexivity.
  - vm_compute. reflexivity.
Defined.

(** C4 as the specification states it asks that the session of
    [broken] ends by returning, with the failure told to the user.  It
    ends with the exception instead, whatever the budget of the loop, and
    has printed the frame and the reset only. *)
Lemma failed_instantiation_is_not_graceful :
  instantiation_fails broken "notes.md" ∧
  (∀ fuel s', run (S fuel) broken ≠ (Ok tt, s')) ∧
  (run 1 broken).1 = Raise OSError ∧
  stdout (run 1 broken).2 =
    [Frame ["notes.md"; "report.txt"; "script.sh"] 0 true; Reset].
Proof.
  split; [|split; [|split]].
  - left. intros content. vm_compute. discriminate.
  - intros fuel s'. unfold run, finally, except_pass. cbn [main_loop].
    rewrite bind_unfold.
    destruct (iteration broken) as [r s1] eqn:E. vm_compute in E.
    injection E as <- <-. cbn. discriminate.
  - vm_compute. reflexivity.
  - vm_compute. reflexivity.
Qed.

Lemma catalog_sorted_and_eligible_sample :
  templates (after (init true) sample) = ["notes.md"; "report.txt"; "script.sh"] ∧
  StronglySorted String.le (templates (after (init true) sample)) ∧
  "drafts" ∉ templates (after (init true) sample).
Proof.
  split; [vm_compute; reflexivity|].
  destruct (catalog_sorted_and_eligible true sample) as (Hsorted & _ & _ & Hkind).
  split; [exact Hsorted|]. apply Hkind. left. vm_compute. reflexivity.
Defined.

Lemma selection_stays_in_range_sample :
  let typed :=
    set_stdin [Text "down"; Text "down"; Text "down"; Text "9"; Text "up"]
      sample in
  in_range (after (handle_key (esc +:+ "[B")) (set_selected_index 2 sample)) ∧
  in_range (after (handle_fallback_command "9") sample) ∧
  in_range (after (main false 6) typed) ∧
  selected_index (after (main false 6) typed) = 1 ∧
  stdin (after (main false 6) typed) = [].
Proof.
  intros typed.
  destruct selection_stays_in_range as (_ & Hkey & Hcommand & Hmain).
  split; [|split; [|split; [|split]]].
  - refine (proj2 (Hkey (esc +:+ "[B") (set_selected_index 2 sample) _)).
    intros _. vm_compute. split; [discriminate|reflexivity].
  - refine (proj2 (Hcommand "9" sample _)).
    intros _. vm_compute. split; [discriminate|reflexivity].
  - exact (Hmain false 6%nat typed).
  - vm_compute. reflexivity.
  - vm_compute. reflexivity.
Defined.

Lemma moves_clamp_at_the_ends_sample :
  selected_index (Nat.iter 5 (after (handle_key (esc +:+ "[B"))) sample) = 2.
Proof.
  destruct (moves_clamp_at_the_ends sample) as [Hdown _].
  - vm_compute. discriminate.
  - intros _. vm_compute. split; [discriminate|reflexivity].
  - destruct (Hdown (handle_key (esc +:+ "[B"))) as (_ & _ & Hstay & _).
    + apply list_elem_of_here.
    + apply (Hstay 5%nat). vm_compute. discriminate.
Defined.

Lemma jump_to_number_sample :
  handle_fallback_command "2" sample = (Ok true, set_selected_index 1 sample) ∧
  after (handle_fallback_command "7") sample = sample.
Proof.
  split.
  - refine (proj1 (jump_to_number sample "2" 2 _ _ _)).
    + vm_compute. discriminate.
    + reflexivity.
    + reflexivity.
  - refine (proj2 (proj2 (jump_to_number sample "7" 7 _ _ _)) _).
    + vm_compute. discriminate.
    + reflexivity.
    + reflexivity.
    + right. vm_compute. reflexivity.
Defined.

Lemma empty_catalog_commands_idle :
  handle_key (esc +:+ "[B") idle = (Ok true, idle) ∧
  cwd (after (handle_fallback_command "enter") idle) = cwd idle.
Proof.
  destruct (empty_catalog_commands idle eq_refl) as (Hkey & _ & Hfallback).
  split; [exact (Hkey (esc +:+ "[B"))|].
  exact (proj1 (Hfallback "enter")).
Defined.

(** * The further statements at sample sessions *)

Lemma copy_to_free_name_sample :
  ∃ s', create_file_from_template "script.sh" false sample = (Ok "script.sh", s') ∧
        cwd s' = <["script.sh" := RegularFile (Some "exit 0")]> (cwd sample).
Proof.
  refine (copy_to_free_name sample "script.sh" "exit 0" _ _ _); reflexivity.
Defined.

Lemma unicode_methods_ascii : StrMethodsAscii unicode_methods.
Proof.
  split; [intros s _; reflexivity|]. intros s Hs. cbn.
  case_bool_decide as E; [|by rewrite orb_false_r].
  subst s. vm_compute in Hs. discriminate.
Qed.

Lemma continuing_iteration_takes_input_sample :
  let typed := set_stdin [Text (esc +:+ "[B"); Text "7"; Text "q"] sample in
  (iteration typed).1 = Ok true ∧
  ((length (stdin (iteration typed).2) < length (stdin typed))%nat ∨
   reads_nothing typed) ∧
  (main true 4 typed).1 = Ok tt ∧
  (main true 4 typed).1 ≠ OutOfFuel.
Proof.
  intros typed.
  destruct continuing_iteration_takes_input as [Htakes Hbudget].
  split; [vm_compute; reflexivity|]. split; [|split].
  - apply (Htakes typed (iteration typed).2). vm_compute. reflexivity.
  - vm_compute. reflexivity.
  - apply (Hbudget true 4%nat typed); [vm_compute; lia|].
    intros _. vm_compute. discriminate.
Defined.

Lemma interrupt_ends_session_sample :
  ∃ s', run 1 (set_stdin [Interrupt] sample) = (Ok tt, s') ∧
        cwd s' = cwd sample ∧ selected_index s' = 0 ∧ stdin s' = [] ∧
        stdout s' = [Frame ["notes.md"; "report.txt"; "script.sh"] 0 true; Reset].
Proof.
  exact (interrupt_ends_session 0 (set_stdin [Interrupt] sample) [] eq_refl).
Defined.

Lemma quit_ends_session_idle :
  ∃ s', run 1 (set_stdin [Text "  QUIT "; Text "up"] idle) = (Ok tt, s') ∧
        cwd s' = cwd idle ∧ selected_index s' = 0 ∧ stdin s' = [Text "up"] ∧
        stdout s' = [Frame [] 0 false; Prompt; Reset].
Proof.
  refine (quit_ends_session 0 (set_stdin [Text "  QUIT "; Text "up"] idle)
            "  QUIT " [Text "up"] eq_refl _).
  vm_compute. apply list_elem_of_further, list_elem_of_here.
Defined.

Lemma rejected_number_raises_superscript :
  ∃ s', run (SM := unicode_methods) 1 typed_superscript = (Raise ValueError, s') ∧
        cwd s' = cwd typed_superscript ∧ selected_index s' = 0 ∧
        stdout s' =
          [Frame ["notes.md"; "report.txt"; "script.sh"] 0 false;
           CommandsLine; Prompt; Reset].
Proof.
  refine (rejected_number_raises (SM := unicode_methods)
            (StrMethodsAscii0 := unicode_methods_ascii)
            0 typed_superscript superscript_two [] eq_refl _ eq_refl _ _).
  - vm_compute. discriminate.
  - vm_compute. reflexivity.
  - vm_compute. reflexivity.
Defined.

Lemma instantiation_ends_session_sample :
  ∃ k s',
    run 1 (set_stdin [Text "c"; Text "q"] sample) = (Ok tt, s') ∧
    cwd sample !! candidate "notes.md" k = None ∧
    (∀ j, (j < k)%nat → is_Some (cwd sample !! candidate "notes.md" j)) ∧
    cwd s' = <[candidate "notes.md" k := RegularFile (Some "body")]> (cwd sample) ∧
    stdin s' = [Text "q"] ∧
    stdout s' =
      [Frame ["notes.md"; "report.txt"; "script.sh"] 0 true;
       Created (candidate "notes.md" k); Reset].
Proof.
  refine (instantiation_ends_session 0 (set_stdin [Text "c"; Text "q"] sample)
            "notes.md" "body" "c" [Text "q"] _ eq_refl eq_refl eq_refl eq_refl _).
  - vm_compute. discriminate.
  - apply list_elem_of_further, list_elem_of_here.
Defined.

Lemma catalog_independent_of_listing_order_sample :
  templates (after (init true) sample) =
    sorted (filter (λ f, is_file f.2 && is_supported_file f.1 = true)
                   (reverse (iterdir (template_dir sample)))).*1.
Proof.
  apply (catalog_independent_of_listing_order true sample).
  apply reverse_Permutation.
Defined.

Lemma selected_row_is_drawn_long_catalog :
  ∃ rows,
    content_area long_catalog = (Ok rows, long_catalog) ∧
    0 ≤ 7 - start_idx long_catalog < content_height ∧
    rows !! 5%nat = Some (Item 8 "h.md" true true) ∧
    ∀ j n t f, rows !! j = Some (Item n t true f) → j = 5%nat.
Proof.
  refine (selected_row_is_drawn long_catalog "h.md" _ eq_refl).
  vm_compute. discriminate.
Defined.

Lemma unbound_key_redraws_only_sample :
  iteration (set_stdin [Text "7"] sample) =
    (Ok true,
     set_stdin []
       (set_stdout [Frame ["notes.md"; "report.txt"; "script.sh"] 0 true]
          (set_stdin [Text "7"] sample))).
Proof.
  refine (unbound_key_redraws_only (set_stdin [Text "7"] sample) "7" []
            eq_refl eq_refl _ _).
  - discriminate.
  - right. intros Hin. apply list_elem_of_In in Hin. vm_compute in Hin.
    repeat destruct Hin as [Hin|Hin]; try discriminate Hin. exact Hin.
Defined.

Lemma help_discards_next_line_idle :
  ∃ s', iteration (set_stdin [Text " Help "; Text "q"; Text "up"] idle) = (Ok true, s') ∧
        templates s' = [] ∧ selected_index s' = 0 ∧
        cwd s' = cwd idle ∧ stdin s' = [Text "up"] ∧
        stdout s' = [Frame [] 0 false; Prompt; HelpText; Prompt].
Proof.
  refine (help_discards_next_line
            (set_stdin [Text " Help "; Text "q"; Text "up"] idle)
            " Help " "q" [Text "up"] eq_refl eq_refl _).
  vm_compute. apply list_elem_of_here.
Defined.

Lemma down_up_round_trip_sample :
  selected_index
    (after (handle_key (esc +:+ "[A")) (after (handle_key (esc +:+ "[B")) sample)) = 0 ∧
  selected_index
    (after (handle_key (esc +:+ "[B")) (after (handle_key (esc +:+ "[A")) sample)) = 1.
Proof.
  refine (down_up_round_trip (handle_key (esc +:+ "[B")) (handle_key (esc +:+ "[A"))
            sample _ _ _ _).
  - apply list_elem_of_here.
  - apply list_elem_of_here.
  - discriminate.
  - vm_compute. split; [discriminate|reflexivity].
Defined.

Lemma session_never_raises_index_error_piped :
  (main false 4 piped).1 = Raise EOFError ∧ EOFError ≠ IndexError.
Proof.
  assert ((main false 4 piped).1 = Raise EOFError) as Hraise
    by (vm_compute; reflexivity).
  split; [exact Hraise|].
  exact (session_never_raises_index_error false 4 piped EOFError Hraise).
Defined.


Lemma header_exactly_for_prose_with_date_sample :
  (∃ filename s',
     create_file_from_template "notes.md" true sample = (Ok filename, s') ∧
     cwd s' !! filename =
       Some (RegularFile (Some (header "notes.md" morning +:+ "body")))) ∧
  (∃ filename s',
     create_file_from_template "notes.md" false sample = (Ok filename, s') ∧
     cwd s' !! filename = Some (RegularFile (Some "body"))) ∧
  (∃ filename s',
     create_file_from_template "script.sh" true sample = (Ok filename, s') ∧
     cwd s' !! filename = Some (RegularFile (Some "exit 0"))) ∧
  (∃ filename s',
     create_file_from_template "Makefile" true piped = (Ok filename, s') ∧
     cwd s' !! filename = Some (RegularFile (Some "all:"))).
Proof.
  destruct header_exactly_for_prose_with_date as (Hdot & Hnodot & _).
  split; [|split; [|split]].
  - exact (Hdot sample "notes" "md" true "body" eq_refl eq_refl eq_refl).
  - exact (Hdot sample "notes" "md" false "body" eq_refl eq_refl eq_refl).
  - exact (Hdot sample "script" "sh" true "exit 0" eq_refl eq_refl eq_refl).
  - exact (Hnodot piped "Makefile" true "all:" eq_refl eq_refl eq_refl).
Defined.
